(** * Gotenberg observability modules: logging bridge and OpenTelemetry lifecycle

  A shallow embedding of
  - [pkg/modules/logging]: [rootCore] (rootcore.go) and [bridgeCore]
    (the buffering bridge between the logger and a late-bound core);
  - [pkg/modules/otel]: [Otel.Validate], [Otel.TraceStart], [Otel.Start],
    [Otel.Stop] (otel.go) and the exporter constructors (exporters.go);
  - [pkg/gotenberg/telemetry.go]: [Metric] and [MetricInstrument].

  Go values are modelled as the code has them: an [error] is a nil-able
  interface value, slices are lists, [int] and [zapcore.Level] are [Z],
  and a method that mutates state takes the state and returns the new one. *)

From Stdlib Require Import List String Ascii ZArith Bool Lia DecimalString Permutation.
Import ListNotations.

Local Open Scope string_scope.
Local Open Scope list_scope.
Local Open Scope Z_scope.

Set Implicit Arguments.
Set Warnings "-register-all".

(* ================================================================== *)
(** * Calls that may panic                                             *)
(* ================================================================== *)

Module runtime.

(** A call either returns or panics; the only panic in these packages is
    the method call on a nil interface value. *)
Inductive outcome (A : Type) : Type :=
| Returns (a : A)
| Panics.
Arguments Panics {A}.

End runtime.

(* ================================================================== *)
(** * Go errors: [errors], [fmt.Errorf] and [go.uber.org/multierr]      *)
(* ================================================================== *)

Module errors.

(** The dynamic shapes an error value takes in these packages. *)
Inductive err : Type :=
| Canceled                                   (* context.Canceled *)
| ErrorString (s : string)                   (* errors.New(s), fmt.Errorf without %w *)
| WrapError (prefix : string) (inner : err)  (* fmt.Errorf(prefix + "%w", inner) *)
| JoinError (errs : list err)                (* errors.Join *)
| MultiError (errs : list err).              (* multierr's multiError *)

(** The interface type [error]: [None] is Go's [nil]. *)
Definition error : Type := option err.

Definition New (s : string) : error := Some (ErrorString s).

(** [fmt.Errorf(prefix + "%w", e)] for a non-nil [e]. *)
Definition Errorf_w (prefix : string) (e : err) : error :=
  Some (WrapError prefix e).

Fixpoint sep_concat (sep : string) (l : list string) : string :=
  match l with
  | [] => ""
  | [s] => s
  | s :: rest => s ++ sep ++ sep_concat sep rest
  end.

Definition newline : string := String (ascii_of_nat 10) "".

(** The [Error()] method. *)
Fixpoint Error (e : err) : string :=
  match e with
  | Canceled => "context canceled"
  | ErrorString s => s
  | WrapError prefix inner => prefix ++ Error inner
  | JoinError errs => sep_concat newline (map Error errs)
  | MultiError errs => sep_concat "; " (map Error errs)
  end.

(** [errors.Is(e, context.Canceled)] on a non-nil error: the error itself,
    the error it wraps, or any member of a joined error. *)
Fixpoint is_canceled (e : err) : bool :=
  match e with
  | Canceled => true
  | ErrorString _ => false
  | WrapError _ inner => is_canceled inner
  | JoinError errs => existsb is_canceled errs
  | MultiError errs => existsb is_canceled errs
  end.

(** [errors.Is(err, context.Canceled)]; a nil error is not the target. *)
Definition Is_Canceled (e : error) : bool :=
  match e with
  | None => false
  | Some x => is_canceled x
  end.

(** The non-nil members of a slice of errors, in order. *)
Fixpoint non_nil (errs : list error) : list err :=
  match errs with
  | [] => []
  | None :: rest => non_nil rest
  | Some e :: rest => e :: non_nil rest
  end.

(** [errors.Join]: nil values are discarded, nil when nothing is left. *)
Definition Join (errs : list error) : error :=
  match non_nil errs with
  | [] => None
  | l => Some (JoinError l)
  end.

End errors.

Module multierr.
Import errors.

(** The flattening inside [Append]: only a [multiError] is opened. *)
Definition flat (e : error) : list err :=
  match e with
  | None => []
  | Some (MultiError l) => l
  | Some x => [x]
  end.

(** [multierr.Errors]: the members of an error that unwraps to a slice (a
    [multiError] or the result of [errors.Join]), the error itself
    otherwise, nothing for nil. *)
Definition Errors (e : error) : list err :=
  match e with
  | None => []
  | Some (MultiError l) => l
  | Some (JoinError l) => l
  | Some x => [x]
  end.

(** [multierr.Append]: nil is neutral, otherwise a flat [multiError]. *)
Definition Append (left right : error) : error :=
  match left, right with
  | None, _ => right
  | _, None => left
  | Some _, Some _ => Some (MultiError (flat left ++ flat right))
  end.

End multierr.

(* ================================================================== *)
(** * [pkg/gotenberg/telemetry.go]                                     *)
(* ================================================================== *)

Module gotenberg.

(** [type MetricInstrument int], with the [iota] constants. *)
Definition MetricInstrument : Type := Z.
Definition CounterInstrument : MetricInstrument := 0.
Definition UpDownCounterInstrument : MetricInstrument := 1.
Definition HistogramInstrument : MetricInstrument := 2.
Definition GaugeInstrument : MetricInstrument := 3.

(** [Metric]. The [Read func() float64] callback is only called by the
    polling goroutines and is left out. *)
Record Metric : Type := {
  Name : string;
  Description : string;
  Instrument : MetricInstrument
}.

End gotenberg.

(* ================================================================== *)
(** * [pkg/modules/otel]                                               *)
(* ================================================================== *)

Module otel.
Import runtime errors gotenberg.

(** Static metadata attached to a provider ([resource.NewWithAttributes]). *)
Record Resource : Type := {
  ServiceName : string;
  ServiceVersion : string;
  HostName : string
}.

(** A tracer handle of the SDK ([TracerProvider.Tracer(name)]). *)
Record Tracer : Type := { tracerName : string }.

(** A started span. *)
Record Span : Type := { spanTracer : string; spanName : string }.

(** [gotenberg.TracerSpan] is an interface: [None] is the nil interface. *)
Definition TracerSpan : Type := option Span.

(** [context.Context], as far as tracing reads it; [None] is nil. *)
Inductive ctx : Type :=
| Background
| WithSpan (s : Span) (parent : ctx).
Definition Context : Type := option ctx.

(** [type Otel struct]. The pointers to the SDK providers hold the resource
    they were built with; [None] is nil. *)
Record Otel : Type := {
  serviceName : string;
  logExporterProtocol : string;
  enableLogExporter : bool;
  metricExporterProcotol : string;
  metricsCollectInterval : Z;
  enableMetricExporter : bool;
  spanExporterProtocol : string;
  enableSpanExporter : bool;
  metrics : list Metric;
  otlpLoggerProvider : option Resource;
  otlpMeterProvider : option Resource;
  otlpTracerProvider : option Resource;
  otlpTracer : option Tracer
}.

(** The guard shared by [Validate], [Start], [StartupMessage] and [Stop]:
    [!enableMetricExporter && !enableSpanExporter && !enableLogExporter]. *)
Definition allDisabled (m : Otel) : bool :=
  negb (enableMetricExporter m) && negb (enableSpanExporter m)
  && negb (enableLogExporter m).

(** ** [Validate] *)

Definition errServiceName : err :=
  ErrorString "service name must not be empty".
Definition errLogProtocol : err :=
  ErrorString "currently, only the 'grpc' protocol is supported for the OTLP log exporter".
Definition errMetricProtocol : err :=
  ErrorString "currently, only the 'grpc' protocol is supported for the OTLP metric exporter".
Definition errSpanProtocol : err :=
  ErrorString "currently, only the 'grpc' protocol is supported for the OTLP span exporter".

Definition Validate (m : Otel) : error :=
  if allDisabled m then None
  else
    let e0 : error := None in
    let e1 :=
      if (serviceName m =? "")%string
      then multierr.Append e0 (Some errServiceName) else e0 in
    let e2 :=
      if enableLogExporter m then
        if negb (logExporterProtocol m =? "grpc")%string
        then multierr.Append e1 (Some errLogProtocol) else e1
      else e1 in
    let e3 :=
      if enableMetricExporter m then
        if negb (metricExporterProcotol m =? "grpc")%string
        then multierr.Append e2 (Some errMetricProtocol) else e2
      else e2 in
    let e4 :=
      if enableSpanExporter m then
        if negb (spanExporterProtocol m =? "grpc")%string
        then multierr.Append e3 (Some errSpanProtocol) else e3
      else e3 in
    e4.

(** ** [TraceStart] *)

(** [Tracer.Start(ctx, name)] of the SDK: a new span, and the context that
    carries it (a nil parent context counts as the background context). *)
Definition Tracer_Start (t : Tracer) (c : Context) (name : string)
  : Context * TracerSpan :=
  let s := {| spanTracer := tracerName t; spanName := name |} in
  (Some (WithSpan s match c with Some p => p | None => Background end), Some s).

(** The source's disabled branch is the bare [return nil]: both results are
    nil. With the exporter enabled and no tracer (Start not run) the call
    dereferences a nil interface. *)
Definition TraceStart (m : Otel) (c : Context) (name : string)
  : outcome (Context * TracerSpan) :=
  if enableSpanExporter m then
    match otlpTracer m with
    | Some t => Returns (Tracer_Start t c name)
    | None => Panics
    end
  else Returns (None, None).

(** A method call on a span value, such as [span.End()]: calling a method of
    a nil interface value panics. *)
Definition Span_End (s : TracerSpan) : outcome unit :=
  match s with
  | Some _ => Returns tt
  | None => Panics
  end.

(** ** [Stop] *)

(** What the shutdown of each provider returns under the context given to
    [Stop]; the three run in their own goroutine, each sending its result
    on its own channel of capacity one, and [Stop] receives from the three
    channels in a fixed order. *)
Record Shutdowns : Type := {
  loggerShutdown : error;
  meterShutdown : error;
  tracerShutdown : error
}.

Definition filterErr (e : error) : error :=
  if Is_Canceled e then None else e.

(** [provider.Shutdown(ctx)]: the method reads the provider it is called
    on, so the call on a nil provider is a nil dereference. With a provider
    it returns what the provider's shutdown returns. *)
Definition Shutdown (provider : option Resource) (result : error) : outcome error :=
  match provider with
  | Some _ => Returns result
  | None => Panics
  end.

(** [Stop]. A panic in one of the goroutines ends the program, whatever
    the other two do. *)
Definition Stop (m : Otel) (sd : Shutdowns) : outcome error :=
  if allDisabled m then Returns None
  else
    let errLogChan :=
      if negb (enableLogExporter m) then Returns None
      else Shutdown (otlpLoggerProvider m) (loggerShutdown sd) in
    let errMetricChan :=
      if negb (enableMetricExporter m) then Returns None
      else Shutdown (otlpMeterProvider m) (meterShutdown sd) in
    let errTracerChan :=
      if negb (enableSpanExporter m) then Returns None
      else Shutdown (otlpTracerProvider m) (tracerShutdown sd) in
    match errLogChan, errMetricChan, errTracerChan with
    | Returns fromLog, Returns fromMetric, Returns fromTracer =>
        let errLog := filterErr fromLog in
        let errMetric := filterErr fromMetric in
        let errTracer := filterErr fromTracer in
        Returns (Join [errLog; errMetric; errTracer])
    | _, _, _ => Panics
    end.

(** ** exporters.go *)

(** What the calls that leave this package return to [Start]. *)
Record Env : Type := {
  Version : string;                        (* gotenberg.Version *)
  os_Hostname : string * error;            (* os.Hostname() *)
  otlploggrpc_New : error;                 (* otlploggrpc.New(ctx) *)
  otlpmetricgrpc_New : error;              (* otlpmetricgrpc.New(ctx) *)
  otlptracegrpc_New : error;               (* otlptracegrpc.New(ctx) *)
  RegisterCore : error;                    (* logExporterHook.RegisterCore(otelCore) *)
  meter_Float64Counter : Metric -> error;
  meter_Float64UpDownCounter : Metric -> error;
  meter_Float64Histogram : Metric -> error;
  meter_Float64Gauge : Metric -> error
}.

(** The exporter constructors return [(exporter, error)]; the exporter is an
    opaque SDK value and only the error is kept. *)
Definition newLogExporter (env : Env) (protocol : string) : error :=
  if (protocol =? "grpc")%string then
    match otlploggrpc_New env with
    | Some e => Errorf_w "create OTLP gRPC log exporter: " e
    | None => None
    end
  else New ("unknown OTLP log exporter protocol: " ++ protocol).

Definition newMetricExporter (env : Env) (protocol : string) : error :=
  if (protocol =? "grpc")%string then
    match otlpmetricgrpc_New env with
    | Some e => Errorf_w "create OTLP gRPC metric exporter: " e
    | None => None
    end
  else New ("unknown OTLP metric exporter protocol: " ++ protocol).

Definition newSpanExporter (env : Env) (protocol : string) : error :=
  if (protocol =? "grpc")%string then
    match otlptracegrpc_New env with
    | Some e => Errorf_w "create OTLP gRPC span exporter: " e
    | None => None
    end
  else New ("unknown OTLP span exporter protocol: " ++ protocol).

(** ** [Start] *)

(** The goroutine [Start] spawns for a metric: an endless loop that reads
    the metric and sleeps for [metricsCollectInterval]. *)
Inductive Poller : Type :=
| CounterPoller (m : Metric)
| UpDownCounterPoller (m : Metric)
| HistogramPoller (m : Metric)
| GaugePoller (m : Metric).

(** What [Start] changes: the module's fields and the running goroutines. *)
Record StartState : Type := {
  smod : Otel;
  spawned : list Poller
}.

Definition set_otlpLoggerProvider (r : Resource) (s : StartState) : StartState :=
  let m := smod s in
  {| smod := {| serviceName := serviceName m;
                logExporterProtocol := logExporterProtocol m;
                enableLogExporter := enableLogExporter m;
                metricExporterProcotol := metricExporterProcotol m;
                metricsCollectInterval := metricsCollectInterval m;
                enableMetricExporter := enableMetricExporter m;
                spanExporterProtocol := spanExporterProtocol m;
                enableSpanExporter := enableSpanExporter m;
                metrics := metrics m;
                otlpLoggerProvider := Some r;
                otlpMeterProvider := otlpMeterProvider m;
                otlpTracerProvider := otlpTracerProvider m;
                otlpTracer := otlpTracer m |};
     spawned := spawned s |}.

Definition set_otlpMeterProvider (r : Resource) (s : StartState) : StartState :=
  let m := smod s in
  {| smod := {| serviceName := serviceName m;
                logExporterProtocol := logExporterProtocol m;
                enableLogExporter := enableLogExporter m;
                metricExporterProcotol := metricExporterProcotol m;
                metricsCollectInterval := metricsCollectInterval m;
                enableMetricExporter := enableMetricExporter m;
                spanExporterProtocol := spanExporterProtocol m;
                enableSpanExporter := enableSpanExporter m;
                metrics := metrics m;
                otlpLoggerProvider := otlpLoggerProvider m;
                otlpMeterProvider := Some r;
                otlpTracerProvider := otlpTracerProvider m;
                otlpTracer := otlpTracer m |};
     spawned := spawned s |}.

Definition set_otlpTracerProvider (r : Resource) (s : StartState) : StartState :=
  let m := smod s in
  {| smod := {| serviceName := serviceName m;
                logExporterProtocol := logExporterProtocol m;
                enableLogExporter := enableLogExporter m;
                metricExporterProcotol := metricExporterProcotol m;
                metricsCollectInterval := metricsCollectInterval m;
                enableMetricExporter := enableMetricExporter m;
                spanExporterProtocol := spanExporterProtocol m;
                enableSpanExporter := enableSpanExporter m;
                metrics := metrics m;
                otlpLoggerProvider := otlpLoggerProvider m;
                otlpMeterProvider := otlpMeterProvider m;
                otlpTracerProvider := Some r;
                otlpTracer := Some {| tracerName := serviceName m |} |};
     spawned := spawned s |}.

Definition spawn (p : Poller) (s : StartState) : StartState :=
  {| smod := smod s; spawned := spawned s ++ [p] |}.

(** A run of statements of [Start]: the state afterwards, and the error of
    the [return] it ran into, if any. Every early [return] of [Start] hands
    back a non-nil error, so [None] means that control falls through. *)
Definition step : Type := StartState -> StartState * error.

Definition andThen (a b : step) : step :=
  fun s => match a s with
           | (s', None) => b s'
           | (s', Some e) => (s', Some e)
           end.
Notation "a ;; b" := (andThen a b) (at level 61, right associativity).

Definition skip : step := fun s => (s, None).
Definition when (c : bool) (a : step) : step := if c then a else skip.
Definition modify (f : StartState -> StartState) : step := fun s => (f s, None).

(** [if err != nil { return fmt.Errorf(prefix + "%w", err) }] *)
Definition orReturn (r : error) (prefix : string) : step :=
  fun s => (s, match r with
               | Some e => Errorf_w prefix e
               | None => None
               end).

(** [fmt]'s [%d] verb. *)
Definition fmt_d (z : Z) : string := NilZero.string_of_int (Z.to_int z).

(** The [for _, m := range mod.metrics] loop with its [switch]. *)
Fixpoint startMetrics (env : Env) (ms : list Metric) : step :=
  match ms with
  | [] => skip
  | m :: rest =>
      (if Instrument m =? CounterInstrument then
         orReturn (meter_Float64Counter env m) "create counter instrument: " ;;
         modify (spawn (CounterPoller m))
       else if Instrument m =? UpDownCounterInstrument then
         orReturn (meter_Float64UpDownCounter env m) "create up down counter instrument: " ;;
         modify (spawn (UpDownCounterPoller m))
       else if Instrument m =? HistogramInstrument then
         orReturn (meter_Float64Histogram env m) "create histogram instrument: " ;;
         modify (spawn (HistogramPoller m))
       else if Instrument m =? GaugeInstrument then
         orReturn (meter_Float64Gauge env m) "create gauge instrument: " ;;
         modify (spawn (GaugePoller m))
       else
         fun s => (s, New ("unknown instrument: " ++ fmt_d (Instrument m))))
      ;; startMetrics env rest
  end.

(** [Start]. The registrations with the global [otel] package (logger,
    error handler, providers) have no part in what is returned and are
    left out. *)
Definition Start (env : Env) (m : Otel) : StartState * error :=
  let s0 := {| smod := m; spawned := [] |} in
  if allDisabled m then (s0, None)
  else
    match os_Hostname env with
    | (_, Some e) => (s0, Errorf_w "get hostname: " e)
    | (hostName, None) =>
        let res := {| ServiceName := serviceName m;
                      ServiceVersion := Version env;
                      HostName := hostName |} in
        (when (enableLogExporter m)
           (orReturn (newLogExporter env (logExporterProtocol m)) "create OTLP log exporter: " ;;
            modify (set_otlpLoggerProvider res) ;;
            orReturn (RegisterCore env) "register core to hook: ") ;;
         when (enableMetricExporter m)
           (orReturn (newMetricExporter env (metricExporterProcotol m)) "create OTLP metric exporter: " ;;
            modify (set_otlpMeterProvider res) ;;
            startMetrics env (metrics m)) ;;
         when (enableSpanExporter m)
           (orReturn (newSpanExporter env (spanExporterProtocol m)) "OTLP span exporter: " ;;
            modify (set_otlpTracerProvider res))) s0
    end.

(** ** Words of the specification, for comparison with the code *)

(** The errors a validation pass that does not stop at the first failure
    collects: one for an empty service name, one for each enabled exporter
    whose protocol is not "grpc". *)
Definition configErrors (m : Otel) : list err :=
  (if (serviceName m =? "")%string then [errServiceName] else [])
  ++ (if enableLogExporter m && negb (logExporterProtocol m =? "grpc")%string
      then [errLogProtocol] else [])
  ++ (if enableMetricExporter m && negb (metricExporterProcotol m =? "grpc")%string
      then [errMetricProtocol] else [])
  ++ (if enableSpanExporter m && negb (spanExporterProtocol m =? "grpc")%string
      then [errSpanProtocol] else []).

(** The results [Stop] collects: a disabled exporter contributes nil. *)
Definition collected (m : Otel) (sd : Shutdowns) : list error :=
  [ if enableLogExporter m then loggerShutdown sd else None;
    if enableMetricExporter m then meterShutdown sd else None;
    if enableSpanExporter m then tracerShutdown sd else None ].

(** The collected errors that are not a context cancellation. *)
Definition surviving (m : Otel) (sd : Shutdowns) : list err :=
  filter (fun e => negb (is_canceled e)) (non_nil (collected m sd)).

(** An instrument kind outside the four declared constants. *)
Definition unknownInstrument (k : MetricInstrument) : bool :=
  negb ((k =? CounterInstrument) || (k =? UpDownCounterInstrument)
        || (k =? HistogramInstrument) || (k =? GaugeInstrument)).

(** ** Inputs and auxiliary notions for the properties below *)

(** A module whose only fault is a metric of an undeclared kind. *)
Definition gaugeLike : Metric :=
  {| Name := "queue_size"; Description := ""; Instrument := 7 |}.

Definition unknownKindModule : Otel :=
  {| serviceName := "gotenberg";
     logExporterProtocol := "grpc"; enableLogExporter := false;
     metricExporterProcotol := "grpc"; metricsCollectInterval := 5000000000;
     enableMetricExporter := true;
     spanExporterProtocol := "grpc"; enableSpanExporter := false;
     metrics := [gaugeLike];
     otlpLoggerProvider := None; otlpMeterProvider := None;
     otlpTracerProvider := None; otlpTracer := None |}.

(** A counter, the unknown kind, a histogram: in this order. *)
Definition requests : Metric :=
  {| Name := "requests"; Description := "requests served"; Instrument := CounterInstrument |}.
Definition latency : Metric :=
  {| Name := "latency"; Description := ""; Instrument := HistogramInstrument |}.

Definition mixedModule : Otel :=
  {| serviceName := "gotenberg";
     logExporterProtocol := "grpc"; enableLogExporter := true;
     metricExporterProcotol := "grpc"; metricsCollectInterval := 5000000000;
     enableMetricExporter := true;
     spanExporterProtocol := "grpc"; enableSpanExporter := true;
     metrics := [requests; gaugeLike; latency];
     otlpLoggerProvider := None; otlpMeterProvider := None;
     otlpTracerProvider := None; otlpTracer := None |}.

(** An environment in which every outside call succeeds. *)
Definition fineEnv : Env :=
  {| Version := "8"; os_Hostname := ("host", None);
     otlploggrpc_New := None; otlpmetricgrpc_New := None;
     otlptracegrpc_New := None; RegisterCore := None;
     meter_Float64Counter := fun _ => None;
     meter_Float64UpDownCounter := fun _ => None;
     meter_Float64Histogram := fun _ => None;
     meter_Float64Gauge := fun _ => None |}.

(** Log and span exporters enabled; the logger shutdown is cancelled and
    the tracer shutdown fails with "X". *)
Definition logAndSpanModule : Otel :=
  {| serviceName := "gotenberg";
     logExporterProtocol := "grpc"; enableLogExporter := true;
     metricExporterProcotol := "grpc"; metricsCollectInterval := 5000000000;
     enableMetricExporter := false;
     spanExporterProtocol := "grpc"; enableSpanExporter := true;
     metrics := [];
     otlpLoggerProvider := None; otlpMeterProvider := None;
     otlpTracerProvider := None; otlpTracer := None |}.

Definition cancelledAndX : Shutdowns :=
  {| loggerShutdown := Some (WrapError "shutdown: " Canceled);
     meterShutdown := None;
     tracerShutdown := Some (ErrorString "X") |}.

Definition set_metrics (ms : list Metric) (m : Otel) : Otel :=
  {| serviceName := serviceName m;
     logExporterProtocol := logExporterProtocol m;
     enableLogExporter := enableLogExporter m;
     metricExporterProcotol := metricExporterProcotol m;
     metricsCollectInterval := metricsCollectInterval m;
     enableMetricExporter := enableMetricExporter m;
     spanExporterProtocol := spanExporterProtocol m;
     enableSpanExporter := enableSpanExporter m;
     metrics := ms;
     otlpLoggerProvider := otlpLoggerProvider m;
     otlpMeterProvider := otlpMeterProvider m;
     otlpTracerProvider := otlpTracerProvider m;
     otlpTracer := otlpTracer m |}.

(** The instrument the meter is asked for, per declared kind. *)
Definition newInstrument (env : Env) (k : Metric) : error :=
  if Instrument k =? CounterInstrument then meter_Float64Counter env k
  else if Instrument k =? UpDownCounterInstrument then meter_Float64UpDownCounter env k
  else if Instrument k =? HistogramInstrument then meter_Float64Histogram env k
  else meter_Float64Gauge env k.

Definition pollerOf (k : Metric) : Poller :=
  if Instrument k =? CounterInstrument then CounterPoller k
  else if Instrument k =? UpDownCounterInstrument then UpDownCounterPoller k
  else if Instrument k =? HistogramInstrument then HistogramPoller k
  else GaugePoller k.

(** A metric of a declared kind whose instrument the meter creates. *)
Definition starts (env : Env) (k : Metric) : bool :=
  negb (unknownInstrument (Instrument k))
  && match newInstrument env k with None => true | Some _ => false end.

(** Everything [Start] does before the metrics loop succeeds. *)
Definition reachesMetrics (env : Env) (m : Otel) : bool :=
  enableMetricExporter m
  && match snd (os_Hostname env) with None => true | Some _ => false end
  && (negb (enableLogExporter m)
      || (match newLogExporter env (logExporterProtocol m) with
          | None => true | Some _ => false end
          && match RegisterCore env with None => true | Some _ => false end))
  && match newMetricExporter env (metricExporterProcotol m) with
     | None => true | Some _ => false end.

(** ** [StartupMessage] *)

Definition StartupMessage (m : Otel) : string :=
  if allDisabled m then "OTLP exporters are disabled"
  else
    let exporters0 : list string := [] in
    let exporters1 :=
      if enableLogExporter m
      then exporters0 ++ [(logExporterProtocol m ++ " log exporter")%string]
      else exporters0 in
    let exporters2 :=
      if enableMetricExporter m
      then exporters1 ++ [(metricExporterProcotol m ++ " metric exporter")%string]
      else exporters1 in
    let exporters3 :=
      if enableSpanExporter m
      then exporters2 ++ [(spanExporterProtocol m ++ " span exporter")%string]
      else exporters2 in
    ("the following OTLP exporter(s) are enabled: " ++ sep_concat ", " exporters3)%string.

(** ** Further notions for the properties below *)

Definition isNil (e : error) : bool :=
  match e with None => true | Some _ => false end.

Definition isNil_provider (p : option Resource) : bool :=
  match p with None => true | Some _ => false end.

(** The resource [Start] builds once the host name is known. *)
Definition resourceOf (env : Env) (m : Otel) : Resource :=
  {| ServiceName := serviceName m;
     ServiceVersion := Version env;
     HostName := fst (os_Hostname env) |}.

(** The steps of [Start] for the log exporter succeed, if it is enabled. *)
Definition logStepsOk (env : Env) (m : Otel) : bool :=
  negb (enableLogExporter m)
  || (isNil (newLogExporter env (logExporterProtocol m)) && isNil (RegisterCore env)).

(** The steps of [Start] for the metric exporter succeed, if it is enabled. *)
Definition metricStepsOk (env : Env) (m : Otel) : bool :=
  negb (enableMetricExporter m)
  || (isNil (newMetricExporter env (metricExporterProcotol m))
      && forallb (starts env) (metrics m)).

(** The steps of [Start] for the span exporter succeed, if it is enabled. *)
Definition spanStepsOk (env : Env) (m : Otel) : bool :=
  negb (enableSpanExporter m)
  || isNil (newSpanExporter env (spanExporterProtocol m)).

(** Every step of [Start] succeeds. *)
Definition startsCleanly (env : Env) (m : Otel) : bool :=
  isNil (snd (os_Hostname env))
  && logStepsOk env m && metricStepsOk env m && spanStepsOk env m.

(** The settings of a module, which only [Provision] writes. *)
Definition settings (m : Otel)
  : string * (string * bool) * (string * Z * bool) * (string * bool) * list Metric :=
  (serviceName m,
   (logExporterProtocol m, enableLogExporter m),
   (metricExporterProcotol m, metricsCollectInterval m, enableMetricExporter m),
   (spanExporterProtocol m, enableSpanExporter m),
   metrics m).

(** An environment in which only the span exporter cannot be built. *)
Definition noSpanEnv : Env :=
  {| Version := "8"; os_Hostname := ("host", None);
     otlploggrpc_New := None; otlpmetricgrpc_New := None;
     otlptracegrpc_New := Some (ErrorString "connection refused");
     RegisterCore := None;
     meter_Float64Counter := fun _ => None;
     meter_Float64UpDownCounter := fun _ => None;
     meter_Float64Histogram := fun _ => None;
     meter_Float64Gauge := fun _ => None |}.

(** All three exporters enabled, two metrics of declared kinds. *)
Definition fullModule : Otel :=
  {| serviceName := "gotenberg";
     logExporterProtocol := "grpc"; enableLogExporter := true;
     metricExporterProcotol := "grpc"; metricsCollectInterval := 5000000000;
     enableMetricExporter := true;
     spanExporterProtocol := "grpc"; enableSpanExporter := true;
     metrics := [requests; latency];
     otlpLoggerProvider := None; otlpMeterProvider := None;
     otlpTracerProvider := None; otlpTracer := None |}.

(** No exporter enabled, and settings [Validate] would otherwise refuse. *)
Definition disabledModule : Otel :=
  {| serviceName := "";
     logExporterProtocol := "http"; enableLogExporter := false;
     metricExporterProcotol := "http"; metricsCollectInterval := 0;
     enableMetricExporter := false;
     spanExporterProtocol := "http"; enableSpanExporter := false;
     metrics := [];
     otlpLoggerProvider := None; otlpMeterProvider := None;
     otlpTracerProvider := None; otlpTracer := None |}.

(** Every enabled exporter has its provider, as after a [Start] that
    returned nil. *)
Definition providersReady (m : Otel) : bool :=
  (negb (enableLogExporter m) || negb (isNil_provider (otlpLoggerProvider m)))
  && (negb (enableMetricExporter m) || negb (isNil_provider (otlpMeterProvider m)))
  && (negb (enableSpanExporter m) || negb (isNil_provider (otlpTracerProvider m))).

(** The module with all three exporters as a successful [Start] leaves it. *)
Definition runningModule : Otel := smod (fst (Start fineEnv fullModule)).

(** Every shutdown is cut short by the context, the tracer's also reports
    a genuine error joined to the cancellation. *)
Definition allCancelled : Shutdowns :=
  {| loggerShutdown := Some Canceled;
     meterShutdown := Some (WrapError "flush: " Canceled);
     tracerShutdown := Some (JoinError [ErrorString "X"; Canceled]) |}.

End otel.

(* ================================================================== *)
(** * [go.uber.org/zap/zapcore]: what the logging package uses of it   *)
(* ================================================================== *)

Module zapcore.
Import errors.

(** [type Level int8] and its constants. *)
Definition Lvl : Type := Z.
Definition DebugLevel : Lvl := -1.
Definition InfoLevel : Lvl := 0.
Definition WarnLevel : Lvl := 1.
Definition ErrorLevel : Lvl := 2.

(** [Entry], with the fields that tell entries apart here ([Caller] and
    [Stack] are left out). *)
Record Entry : Type := {
  Level : Lvl;
  Time : Z;
  LoggerName : string;
  Message : string
}.

Definition setLevel (l : Lvl) (e : Entry) : Entry :=
  {| Level := l; Time := Time e; LoggerName := LoggerName e; Message := Message e |}.

(** [Field]: the key and the payload (without the [Interface] slot). *)
Record Field : Type := {
  Key : string;
  FieldType : Z;
  Integer : Z;
  Str : string
}.

Definition setKey (k : string) (f : Field) : Field :=
  {| Key := k; FieldType := FieldType f; Integer := Integer f; Str := Str f |}.

(** A [Write(ent, fields)] method over the state [W] it works on. A slice is
    passed by reference, so the method also hands back what the caller's
    slice holds once it has returned. *)
Definition Writer (W : Type) : Type :=
  Entry -> list Field -> W -> list Field * (error * W).

(** [CheckedEntry]: the entry and the cores that agreed to write it. *)
Record CheckedEntry (W : Type) : Type := {
  ceEntry : Entry;
  cores : list (Writer W)
}.

(** [ce.AddCore(ent, core)]: a nil [ce] is allocated with [ent]; a non-nil
    one keeps its entry. *)
Definition AddCore {W} (ent : Entry) (core : Writer W)
  (ce : option (CheckedEntry W)) : option (CheckedEntry W) :=
  match ce with
  | None => Some {| ceEntry := ent; cores := [core] |}
  | Some c => Some {| ceEntry := ceEntry c; cores := cores c ++ [core] |}
  end.

(** The loop of [ce.Write(fields...)]: every core gets the same slice. *)
Fixpoint writeCores {W} (cs : list (Writer W)) (ent : Entry)
  (fields : list Field) (w : W) : list Field * W :=
  match cs with
  | [] => (fields, w)
  | c :: rest =>
      let '(fields', (_, w')) := c ent fields w in
      writeCores rest ent fields' w'
  end.

Definition CheckedEntry_Write {W} (ce : CheckedEntry W) (fields : list Field)
  (w : W) : list Field * W :=
  writeCores (cores ce) (ceEntry ce) fields w.

(** The interface [zapcore.Core], for cores of type [C] acting on [W].
    [Enabled] and [Check] read the state and leave it as it is. [Check]
    lists the [AddCore(entry, core)] calls the method makes on the checked
    entry it is given, in order (none when it declines). [With] and [Write]
    hand back the slice they were given as it stands when they return. *)
Class ZapCore (W C : Type) : Type := {
  Enabled : C -> Lvl -> W -> bool;
  With : C -> list Field -> list Field * C;
  Check : C -> Entry -> W -> list (Entry * Writer W);
  Write : C -> Writer W;
  Sync : C -> W -> error * W
}.

(** [core.Check(ent, ce)]. *)
Definition runCheck {W} (adds : list (Entry * Writer W))
  (ce : option (CheckedEntry W)) : option (CheckedEntry W) :=
  fold_left (fun acc a => AddCore (fst a) (snd a) acc) adds ce.

(** A recording core, the test double a bridge is observed with: it keeps a
    level enabler and the fields given to [With], and appends every entry
    written to it, with its fields, to a log. *)
Record observer : Type := {
  obsEnab : Lvl -> bool;
  obsContext : list Field
}.

Definition LoggedEntry : Type := (Entry * list Field)%type.

Definition observer_Write (o : observer) : Writer (list LoggedEntry) :=
  fun ent fields log => (fields, (None, log ++ [(ent, obsContext o ++ fields)])).

#[export] Instance observer_Core : ZapCore (list LoggedEntry) observer := {
  Enabled o l _ := obsEnab o l;
  With o fields := (fields, {| obsEnab := obsEnab o; obsContext := obsContext o ++ fields |});
  Check o ent _ := if obsEnab o (Level ent) then [(ent, observer_Write o)] else [];
  Write := observer_Write;
  Sync _ log := (None, log)
}.

End zapcore.

(* ================================================================== *)
(** * [pkg/modules/logging]                                            *)
(* ================================================================== *)

Module logging.
Import runtime errors zapcore.

(** ** The bridge core *)

(** If specified in the fields, the bridge core will ignore the
    corresponding entries. *)
Definition internalKey : string := "internal".

Record bufferedLog : Type := {
  ent : Entry;
  bufFields : list Field
}.

(** Handles made by [With] all hold the same pointer [shared]; the object
    it points to lives in the world the methods act on, the handle keeps
    what is its own. *)
Record bridgeCore : Type := {
  fields : list Field;
  level : Lvl -> bool
}.

Section Bridge.

(** The core attached later, of some type [Tg], acting on a state [T]. *)
Context {T Tg : Type} `{ZapCore T Tg}.

(** [sharedBridgeState] (without its mutex); a nil [target] is [None]. *)
Record sharedBridgeState : Type := {
  target : option Tg;
  buffer : list bufferedLog
}.

(** The shared state, and the state the attached core works on. *)
Record bridgeWorld : Type := {
  shared : sharedBridgeState;
  backend : T
}.

Definition newBridgeCore (lvl : Lvl -> bool) : bridgeCore * sharedBridgeState :=
  ({| fields := []; level := lvl |}, {| target := None; buffer := [] |}).

(** A method of the attached core, run from inside the bridge. *)
Definition onBackend (wr : Writer T) : Writer bridgeWorld :=
  fun e fs w =>
    let '(fs', (err, t')) := wr e fs (backend w) in
    (fs', (err, {| shared := shared w; backend := t' |})).

(** The replay loop of [SetTarget] over the buffer. *)
Fixpoint replay (t : Tg) (logs : list bufferedLog) (tw : T) : T :=
  match logs with
  | [] => tw
  | log :: rest =>
      let tw' :=
        match runCheck (Check t (ent log) tw) None with
        | Some ce => snd (CheckedEntry_Write ce (bufFields log) tw)
        | None => tw
        end in
      replay t rest tw'
  end.

(** [SetTarget]. With a nil [core] the first iteration of the loop calls a
    method of a nil interface. *)
Definition SetTarget (core : option Tg) (w : bridgeWorld) : outcome bridgeWorld :=
  match core with
  | Some t =>
      Returns {| shared := {| target := Some t; buffer := [] |};
                      backend := replay t (buffer (shared w)) (backend w) |}
  | None =>
      match buffer (shared w) with
      | [] => Returns {| shared := {| target := None; buffer := [] |};
                              backend := backend w |}
      | _ :: _ => Panics
      end
  end.

Definition bridgeCore_Enabled (b : bridgeCore) (lvl : Lvl) (w : bridgeWorld) : bool :=
  match target (shared w) with
  | Some t => Enabled t lvl (backend w)
  | None => level b lvl
  end.

(** [append(b.fields[:len(b.fields):len(b.fields)], fields...)] copies. *)
Definition bridgeCore_With (b : bridgeCore) (fs : list Field) : list Field * bridgeCore :=
  (fs, {| fields := fields b ++ fs; level := level b |}).

Definition hasInternalKey (allFields : list Field) : bool :=
  existsb (fun f => (Key f =? internalKey)%string) allFields.

Definition bridgeCore_Write (b : bridgeCore) : Writer bridgeWorld :=
  fun e fs w =>
    let allFields := fields b ++ fs in
    if hasInternalKey allFields then (fs, (None, w))
    else
      match target (shared w) with
      | Some t =>
          let '(_, (err, t')) := Write t e allFields (backend w) in
          (fs, (err, {| shared := shared w; backend := t' |}))
      | None =>
          if Z.of_nat (List.length (buffer (shared w))) <? 1000 then
            (fs, (None,
                  {| shared := {| target := None;
                                  buffer := buffer (shared w)
                                            ++ [{| ent := e; bufFields := allFields |}] |};
                     backend := backend w |}))
          else (fs, (None, w))
      end.

Definition bridgeCore_Check (b : bridgeCore) (e : Entry) (w : bridgeWorld)
  : list (Entry * Writer bridgeWorld) :=
  match target (shared w) with
  | Some t => map (fun a => (fst a, onBackend (snd a))) (Check t e (backend w))
  | None => [(e, bridgeCore_Write b)]
  end.

Definition bridgeCore_Sync (b : bridgeCore) (w : bridgeWorld) : error * bridgeWorld :=
  match target (shared w) with
  | Some t =>
      let '(err, t') := Sync t (backend w) in
      (err, {| shared := shared w; backend := t' |})
  | None => (None, w)
  end.

(** Interface guard. *)
#[export] Instance bridgeCore_Core : ZapCore bridgeWorld bridgeCore := {
  Enabled := bridgeCore_Enabled;
  With := bridgeCore_With;
  Check := bridgeCore_Check;
  Write := bridgeCore_Write;
  Sync := bridgeCore_Sync
}.

(** One call of [Write] on a handle of the bridge. *)
Record call : Type := {
  handle : bridgeCore;
  callEnt : Entry;
  callFields : list Field
}.

(** What a call passes on: the entry, with the handle's fields followed by
    the fields of the call. *)
Definition logged (c : call) : bufferedLog :=
  {| ent := callEnt c; bufFields := fields (handle c) ++ callFields c |}.

Definition isInternal (c : call) : bool :=
  hasInternalKey (fields (handle c) ++ callFields c).

Definition notInternal (c : call) : bool := negb (isInternal c).

Definition doWrite (c : call) (w : bridgeWorld) : error * bridgeWorld :=
  snd (bridgeCore_Write (handle c) (callEnt c) (callFields c) w).

(** A sequence of writes, one after the other under the mutex. *)
Fixpoint writeAll (cs : list call) (w : bridgeWorld) : bridgeWorld :=
  match cs with
  | [] => w
  | c :: rest => writeAll rest (snd (doWrite c w))
  end.

(** What the attached core would do with the calls, were they made on it
    directly: [Write] with the combined fields, in order. *)
Fixpoint forwardAll (t : Tg) (cs : list call) (tw : T) : T :=
  match cs with
  | [] => tw
  | c :: rest =>
      forwardAll t rest
        (snd (snd (Write t (callEnt c) (fields (handle c) ++ callFields c) tw)))
  end.

End Bridge.

Arguments sharedBridgeState : clear implicits.
Arguments bridgeWorld : clear implicits.

(** ** The root core *)

Section Root.

Context {W C : Type} `{ZapCore W C}.

(** [rootCore] embeds a [zapcore.Core] (the field [Core]). *)
Record rootCore : Type := {
  Core : C;
  fieldsPrefix : string
}.

(** The loop [for i := range fields { fields[i].Key = prefix + "_" +
    fields[i].Key }]: the slice as it stands after the loop. *)
Definition prefixFields (prefix : string) (fs : list Field) : list Field :=
  map (fun f => setKey ((prefix ++ "_") ++ Key f) f) fs.

Definition rootCore_With (c : rootCore) (fs : list Field) : list Field * rootCore :=
  let fs1 :=
    if negb (fieldsPrefix c =? "")%string
    then prefixFields (fieldsPrefix c) fs else fs in
  let '(fs2, inner) := With (Core c) fs1 in
  (fs2, {| Core := inner; fieldsPrefix := fieldsPrefix c |}).

(** [Enabled] and [Sync] are promoted from the embedded core. *)
Definition rootCore_Enabled (c : rootCore) : Lvl -> W -> bool := Enabled (Core c).
Definition rootCore_Sync (c : rootCore) : W -> error * W := Sync (Core c).

Definition rootCore_Write (c : rootCore) : Writer W :=
  fun entry fs w =>
    let entry1 :=
      if Level entry <? DebugLevel then setLevel DebugLevel entry else entry in
    let fs1 :=
      if negb (fieldsPrefix c =? "")%string
      then prefixFields (fieldsPrefix c) fs else fs in
    Write (Core c) entry1 fs1 w.

Definition rootCore_Check (c : rootCore) (entry : Entry) (w : W)
  : list (Entry * Writer W) :=
  let entry1 :=
    if Level entry <? DebugLevel then setLevel DebugLevel entry else entry in
  if rootCore_Enabled c (Level entry1) w
  then [(entry1, rootCore_Write c)]
  else [].

#[export] Instance rootCore_Core : ZapCore W rootCore := {
  Enabled := rootCore_Enabled;
  With := rootCore_With;
  Check := rootCore_Check;
  Write := rootCore_Write;
  Sync := rootCore_Sync
}.

End Root.

Arguments rootCore : clear implicits.

(** ** The bridge over time *)

Section BridgeSteps.

Context {T Tg : Type} `{ZapCore T Tg}.

(** Every method body that reads or writes the shared state runs under its
    mutex, so a call is one step on the world. What a logger does to the
    bridge through a handle: [Enabled], [With] and [Check] leave the world
    as it is, [Write] and [Sync] may change it. *)
Inductive useStep : bridgeWorld T Tg -> bridgeWorld T Tg -> Prop :=
| use_Write (c : call) (w : bridgeWorld T Tg) :
    useStep w (snd (doWrite c w))
| use_Sync (b : bridgeCore) (w : bridgeWorld T Tg) :
    useStep w (snd (bridgeCore_Sync b w)).

(** Any method of the bridge that returns, [SetTarget] included. *)
Inductive anyStep : bridgeWorld T Tg -> bridgeWorld T Tg -> Prop :=
| any_use (w w' : bridgeWorld T Tg) :
    useStep w w' -> anyStep w w'
| any_SetTarget (core : option Tg) (w w' : bridgeWorld T Tg) :
    SetTarget core w = Returns w' -> anyStep w w'.

(** Zero or more steps. *)
Inductive steps (R : bridgeWorld T Tg -> bridgeWorld T Tg -> Prop)
  : bridgeWorld T Tg -> bridgeWorld T Tg -> Prop :=
| steps_refl (w : bridgeWorld T Tg) : steps R w w
| steps_snoc (w w' w'' : bridgeWorld T Tg) :
    steps R w w' -> R w' w'' -> steps R w w''.

(** The world right after [newBridgeCore]. *)
Definition freshWorld (tw : T) : bridgeWorld T Tg :=
  {| shared := {| target := None; buffer := [] |}; backend := tw |}.

End BridgeSteps.

(** The capacity of the buffer, as a length. *)
Definition capacity : nat := 1000.

(** What a recording core shows for a buffered log, and whether its [Check]
    lets the log through. *)
Definition seenBy (o : observer) (l : bufferedLog) : LoggedEntry :=
  (ent l, obsContext o ++ bufFields l).
Definition passes (o : observer) (l : bufferedLog) : bool :=
  obsEnab o (Level (ent l)).

(** ** Inputs for the properties below *)

Definition recorder : observer :=
  {| obsEnab := fun l => DebugLevel <=? l; obsContext := [] |}.

Definition rootHandle : bridgeCore :=
  fst (@newBridgeCore observer (fun l => InfoLevel <=? l)).

Definition intField (k : string) (n : Z) : Field :=
  {| Key := k; FieldType := 11; Integer := n; Str := "" |}.

Definition boolField (k : string) (b : bool) : Field :=
  {| Key := k; FieldType := 4; Integer := if b then 1 else 0; Str := "" |}.

Definition entryAt (l : Lvl) (msg : string) : Entry :=
  {| Level := l; Time := 0; LoggerName := "api"; Message := msg |}.

Definition oneCall (n : Z) : call :=
  {| handle := rootHandle;
     callEnt := entryAt InfoLevel "request";
     callFields := [intField "count" n] |}.

(** [n] calls, numbered from [k]. *)
Fixpoint callsFrom (k : Z) (n : nat) : list call :=
  match n with
  | O => []
  | S n' => oneCall k :: callsFrom (k + 1) n'
  end.

(** A handle as [logger.With(zap.Bool("internal", true))] makes it. *)
Definition internalHandle : bridgeCore :=
  snd (bridgeCore_With rootHandle [boolField internalKey true]).

(** A root core with the prefix "app" over the recording core, and one
    over a bridge handle. *)
Definition appRoot : rootCore observer :=
  {| Core := recorder; fieldsPrefix := "app" |}.

Definition appBridgeRoot : rootCore bridgeCore :=
  {| Core := rootHandle; fieldsPrefix := "app" |}.

(** Further inputs: a recording core that lets warnings and errors through,
    and calls marked internal. *)
Definition warnRecorder : observer :=
  {| obsEnab := fun l => WarnLevel <=? l; obsContext := [] |}.

Definition internalCall (n : Z) : call :=
  {| handle := internalHandle;
     callEnt := entryAt ErrorLevel "export failed";
     callFields := [intField "attempt" n] |}.

Definition debugCall : call :=
  {| handle := rootHandle;
     callEnt := entryAt DebugLevel "details";
     callFields := [] |}.

End logging.

(* ================================================================== *)
(** * [pkg/modules/logging/logging.go]: the module's settings          *)
(* ================================================================== *)

Module Logging.
Import errors.

Definition errorLoggingLevel : string := "error".
Definition warnLoggingLevel : string := "warn".
Definition infoLoggingLevel : string := "info".
Definition debugLoggingLevel : string := "debug".

Definition autoLoggingFormat : string := "auto".
Definition jsonLoggingFormat : string := "json".
Definition textLoggingFormat : string := "text".

(** [type Logging struct], the settings [Provision] reads from the flags. *)
Record Logging : Type := {
  level : string;
  format : string;
  fieldsPrefix : string;
  enableGcpFields : bool
}.

Definition errLevel : err :=
  ErrorString ("log level must be either " ++ errorLoggingLevel ++ ", "
               ++ warnLoggingLevel ++ ", " ++ infoLoggingLevel ++ " or "
               ++ debugLoggingLevel)%string.

Definition errFormat : err :=
  ErrorString ("log format must be either " ++ autoLoggingFormat ++ ", "
               ++ jsonLoggingFormat ++ " or " ++ textLoggingFormat)%string.

Definition Validate (log : Logging) : error :=
  let err0 : error := None in
  let err1 :=
    if (level log =? errorLoggingLevel)%string
       || (level log =? warnLoggingLevel)%string
       || (level log =? infoLoggingLevel)%string
       || (level log =? debugLoggingLevel)%string
    then err0
    else multierr.Append err0 (Some errLevel) in
  let err2 :=
    if (format log =? autoLoggingFormat)%string
       || (format log =? jsonLoggingFormat)%string
       || (format log =? textLoggingFormat)%string
    then err1
    else multierr.Append err1 (Some errFormat) in
  err2.

(** Settings with a level and a format that are not among the choices. *)
Definition badLogging : Logging :=
  {| level := "trace"; format := "xml"; fieldsPrefix := ""; enableGcpFields := false |}.

End Logging.

(* ================================================================== *)
(** * The logger [Logging.Logger] builds: a tee of two root cores       *)
(* ================================================================== *)

Module logger.
Import runtime errors zapcore logging.

(** ** [zapcore.NewTee] of two cores *)

Section Tee.

(** The first core acts on a state [W1], the second on a state [W2]. *)
Context {W1 C1 W2 C2 : Type} `{ZapCore W1 C1} `{ZapCore W2 C2}.

Definition onFirst (wr : Writer W1) : Writer (W1 * W2) :=
  fun e fs w =>
    let '(fs', (err, w1)) := wr e fs (fst w) in
    (fs', (err, (w1, snd w))).

Definition onSecond (wr : Writer W2) : Writer (W1 * W2) :=
  fun e fs w =>
    let '(fs', (err, w2)) := wr e fs (snd w) in
    (fs', (err, (fst w, w2))).

(** [multiCore]: every method goes through the cores in order, and [With]
    and [Write] give each of them the same slice. *)
Definition multiCore_Enabled (mc : C1 * C2) (lvl : Lvl) (w : W1 * W2) : bool :=
  Enabled (fst mc) lvl (fst w) || Enabled (snd mc) lvl (snd w).

Definition multiCore_With (mc : C1 * C2) (fs : list Field) : list Field * (C1 * C2) :=
  let '(fs1, c1) := With (fst mc) fs in
  let '(fs2, c2) := With (snd mc) fs1 in
  (fs2, (c1, c2)).

Definition multiCore_Check (mc : C1 * C2) (e : Entry) (w : W1 * W2)
  : list (Entry * Writer (W1 * W2)) :=
  map (fun a => (fst a, onFirst (snd a))) (Check (fst mc) e (fst w))
  ++ map (fun a => (fst a, onSecond (snd a))) (Check (snd mc) e (snd w)).

Definition multiCore_Write (mc : C1 * C2) : Writer (W1 * W2) :=
  fun e fs w =>
    let '(fs1, (err1, w1)) := Write (fst mc) e fs (fst w) in
    let '(fs2, (err2, w2)) := Write (snd mc) e fs1 (snd w) in
    (fs2, (multierr.Append err1 err2, (w1, w2))).

Definition multiCore_Sync (mc : C1 * C2) (w : W1 * W2) : error * (W1 * W2) :=
  let '(err1, w1) := Sync (fst mc) (fst w) in
  let '(err2, w2) := Sync (snd mc) (snd w) in
  (multierr.Append err1 err2, (w1, w2)).

#[export] Instance multiCore_Core : ZapCore (W1 * W2) (C1 * C2) := {
  Enabled := multiCore_Enabled;
  With := multiCore_With;
  Check := multiCore_Check;
  Write := multiCore_Write;
  Sync := multiCore_Sync
}.

(** ** [Logging.Logger]: the core handed to [zap.New] *)

(** The tee of logging.go, lines 123 to 134: a root core over the core of
    [newStdCore], whose source is not at hand and which is a parameter
    here, and a root core over the bridge, both with the prefix of the
    settings. *)
Definition teeCore (stdCore : C1) (bridge : C2) (fieldsPrefix : string)
  : rootCore C1 * rootCore C2 :=
  ({| Core := stdCore; fieldsPrefix := fieldsPrefix |},
   {| Core := bridge; fieldsPrefix := fieldsPrefix |}).

End Tee.

(** ** What a [zap.Logger] does with its core *)

Section Logger.

Context {W C : Type} `{ZapCore W C}.

Definition DPanicLevel : Lvl := 3.

(** [logger.Info(msg, fields...)] and the like: unless the level is
    disabled, [Check] on a nil checked entry, then the checked entry's
    write with the fields of the call. *)
Definition logEntry (core : C) (e : Entry) (fs : list Field) (w : W)
  : list Field * W :=
  if (Level e <? DPanicLevel) && negb (Enabled core (Level e) w) then (fs, w)
  else
    match runCheck (Check core e w) None with
    | Some ce => CheckedEntry_Write ce fs w
    | None => (fs, w)
    end.

(** [logger.With(fields...)]: the core's [With]. *)
Definition loggerWith (core : C) (fs : list Field) : list Field * C :=
  With core fs.

End Logger.

(** The state the logger of [Logging.Logger] acts on when the standard
    core is a recording core and a recording core is attached to the
    bridge. *)
Definition loggerWorld : Type :=
  (list LoggedEntry * bridgeWorld (list LoggedEntry) observer)%type.

(** The tee with the prefix "app", and the state with nothing logged yet
    and the recording core attached. *)
Definition appTee : rootCore observer * rootCore bridgeCore :=
  teeCore recorder rootHandle "app".

Definition attachedAtStart : loggerWorld :=
  ([], {| shared := {| target := Some recorder; buffer := [] |}; backend := [] |}).

End logger.

(* ================================================================== *)
(** * Properties of the OpenTelemetry module                           *)
(* ================================================================== *)

Module OtelProps.
Import runtime errors gotenberg otel.

(** ** Validate *)

(** C7. [Validate] reports nothing when no exporter is enabled; otherwise
    the errors it returns are exactly the configuration errors, all of
    them and in order: one for an empty service name and one for each
    enabled exporter whose protocol is not "grpc". It returns nil exactly
    when there is none. *)
Theorem Validate_collects_every_error (m : Otel) :
  multierr.Errors (Validate m) = (if allDisabled m then [] else configErrors m)
  /\ (Validate m = None <-> allDisabled m = true \/ configErrors m = []).
Proof.
  unfold Validate, configErrors, errServiceName, errLogProtocol,
    errMetricProtocol, errSpanProtocol.
  destruct (allDisabled m) eqn:Hd.
  - split; [reflexivity | split; auto].
  - destruct (serviceName m =? "")%string,
      (enableLogExporter m), (logExporterProtocol m =? "grpc")%string,
      (enableMetricExporter m), (metricExporterProcotol m =? "grpc")%string,
      (enableSpanExporter m), (spanExporterProtocol m =? "grpc")%string;
    cbn [negb andb app multierr.Append multierr.Errors multierr.flat];
    (split; [reflexivity | split; [ try discriminate; auto | intros [? | ?]; try discriminate; reflexivity]]).
Qed.

(** ** TraceStart *)

(** C5. With the span exporter disabled [TraceStart] returns nil for the
    context and nil for the span, and ending that span panics: the code
    hands out a nil reference where a no-op span is called for. *)
Theorem TraceStart_disabled_returns_nil (m : Otel) (c : Context) (name : string) :
  enableSpanExporter m = false ->
  TraceStart m c name = Returns (None, None)
  /\ (forall r, TraceStart m c name = Returns r -> Span_End (snd r) = Panics).
Proof.
  intros Hoff. unfold TraceStart. rewrite Hoff. split; [reflexivity |].
  intros r Hr. injection Hr as <-. reflexivity.
Qed.

Lemma TraceStart_disabled_returns_nil_witness :
  enableSpanExporter unknownKindModule = false
  /\ TraceStart unknownKindModule (Some Background) "convert" = Returns (None, None)
  /\ (forall r, TraceStart unknownKindModule (Some Background) "convert" = Returns r ->
      Span_End (snd r) = Panics).
Proof.
  split; [reflexivity | ].
  apply (TraceStart_disabled_returns_nil unknownKindModule (Some Background) "convert").
  reflexivity.
Defined.

(** ** Stop *)

Lemma non_nil_filterErr (l : list error) :
  non_nil (map filterErr l)
  = filter (fun e => negb (is_canceled e)) (non_nil l).
Proof.
  induction l as [ | [e | ] l IH]; simpl.
  - reflexivity.
  - unfold filterErr at 1. simpl. destruct (is_canceled e); simpl.
    + exact IH.
    + f_equal. exact IH.
  - exact IH.
Qed.

Lemma Stop_is_Join_of_collected (m : Otel) (sd : Shutdowns) :
  allDisabled m = false ->
  providersReady m = true ->
  Stop m sd = Returns (Join (map filterErr (collected m sd))).
Proof.
  intros Hd. unfold Stop, collected, providersReady, Shutdown. rewrite Hd.
  destruct (enableLogExporter m), (enableMetricExporter m),
    (enableSpanExporter m), (otlpLoggerProvider m), (otlpMeterProvider m),
    (otlpTracerProvider m); cbn; intros Hr; try discriminate Hr; reflexivity.
Qed.

Lemma Stop_panics_without_provider (m : Otel) (sd : Shutdowns) :
  allDisabled m = false ->
  providersReady m = false ->
  Stop m sd = Panics.
Proof.
  intros Hd. unfold Stop, providersReady, Shutdown. rewrite Hd.
  destruct (enableLogExporter m), (enableMetricExporter m),
    (enableSpanExporter m), (otlpLoggerProvider m), (otlpMeterProvider m),
    (otlpTracerProvider m); cbn; intros Hr; try discriminate Hr; reflexivity.
Qed.

Lemma survivors_perm (l l' : list error) :
  Permutation l l' ->
  Permutation (filter (fun e => negb (is_canceled e)) (non_nil l))
              (filter (fun e => negb (is_canceled e)) (non_nil l')).
Proof.
  induction 1 as [ | x l l' _ IH | x y l | l l' l'' _ IH1 _ IH2 ].
  - constructor.
  - destruct x as [e | ]; simpl; [ | exact IH].
    destruct (is_canceled e); simpl; [exact IH | now constructor].
  - destruct x as [e | ], y as [e' | ]; simpl;
      try destruct (is_canceled e); try destruct (is_canceled e'); simpl;
      try apply Permutation_refl.
    apply perm_swap.
  - eapply Permutation_trans; eassumption.
Qed.

Lemma collected_some_enabled (m : Otel) (sd : Shutdowns) (e : err) :
  In (Some e) (collected m sd) -> allDisabled m = false.
Proof.
  unfold collected, allDisabled.
  destruct (enableLogExporter m), (enableMetricExporter m),
    (enableSpanExporter m); simpl; try reflexivity.
  intros [Hx | [Hx | [Hx | []]]]; discriminate.
Qed.

(** C6. With no exporter enabled [Stop] returns nil. Otherwise, when every
    enabled exporter has its provider, it returns the join of the
    collected shutdown results that are not a context cancellation, every
    one of them and in order, and nil when none is left; when a provider
    of an enabled exporter is nil, it panics. In particular, when the
    three results are a cancellation, a genuine error and nil (in any
    order), [Stop] returns an error whose only member, and whose message,
    is the genuine error's. *)
Theorem Stop_joins_surviving_errors (m : Otel) (sd : Shutdowns) :
  Stop m sd = (if allDisabled m then Returns None
               else if providersReady m
                    then Returns match surviving m sd with
                                 | [] => None
                                 | l => Some (JoinError l)
                                 end
                    else Panics)
  /\ (forall c x : err,
        providersReady m = true ->
        is_canceled c = true -> is_canceled x = false ->
        Permutation (collected m sd) [Some c; Some x; None] ->
        Stop m sd = Returns (Some (JoinError [x]))
        /\ Error (JoinError [x]) = Error x).
Proof.
  assert (Hgen : allDisabled m = false -> providersReady m = true ->
                 Stop m sd = Returns match surviving m sd with
                                     | [] => None
                                     | l => Some (JoinError l)
                                     end).
  { intros Hd Hr. rewrite (Stop_is_Join_of_collected m sd Hd Hr).
    unfold Join, surviving. rewrite non_nil_filterErr. reflexivity. }
  split.
  - destruct (allDisabled m) eqn:Hd.
    + unfold Stop. rewrite Hd. reflexivity.
    + destruct (providersReady m) eqn:Hr.
      * exact (Hgen eq_refl eq_refl).
      * exact (Stop_panics_without_provider m sd Hd Hr).
  - intros c x Hr Hc Hx Hperm.
    assert (Hd : allDisabled m = false).
    { apply (@collected_some_enabled m sd c).
      eapply Permutation_in; [apply Permutation_sym; exact Hperm | left; reflexivity]. }
    assert (Hs : surviving m sd = [x]).
    { apply Permutation_length_1_inv, Permutation_sym.
      unfold surviving.
      eapply Permutation_trans; [apply survivors_perm; exact Hperm | ].
      simpl. rewrite Hc, Hx. simpl. apply Permutation_refl. }
    rewrite (Hgen Hd Hr), Hs. split; reflexivity.
Qed.

Lemma Stop_joins_surviving_errors_witness :
  snd (Start fineEnv fullModule) = None
  /\ providersReady runningModule = true
  /\ is_canceled (WrapError "shutdown: " Canceled) = true
  /\ is_canceled (ErrorString "X") = false
  /\ Permutation (collected runningModule cancelledAndX)
       [Some (WrapError "shutdown: " Canceled); Some (ErrorString "X"); None]
  /\ Stop runningModule cancelledAndX = Returns (Some (JoinError [ErrorString "X"]))
  /\ Error (JoinError [ErrorString "X"]) = "X".
Proof.
  assert (Hperm : Permutation (collected runningModule cancelledAndX)
                    [Some (WrapError "shutdown: " Canceled);
                     Some (ErrorString "X"); None]).
  { cbn. apply perm_skip. apply perm_swap. }
  do 4 (split; [reflexivity | ]).
  split; [exact Hperm | ].
  exact (proj2 (Stop_joins_surviving_errors runningModule cancelledAndX)
           (WrapError "shutdown: " Canceled) (ErrorString "X")
           eq_refl eq_refl eq_refl Hperm).
Defined.

(** ** Unknown instrument kinds *)

Lemma Validate_ignores_metrics (ms : list Metric) (m : Otel) :
  Validate (set_metrics ms m) = Validate m.
Proof. reflexivity. Qed.

Lemma startMetrics_upto_unknown (env : Env) (k : Metric) (post : list Metric) :
  unknownInstrument (Instrument k) = true ->
  forall (pre : list Metric) (s : StartState),
    forallb (starts env) pre = true ->
    startMetrics env (pre ++ k :: post) s
    = ({| smod := smod s; spawned := spawned s ++ map pollerOf pre |},
       New ("unknown instrument: " ++ fmt_d (Instrument k))).
Proof.
  intros Hk. unfold unknownInstrument in Hk.
  apply negb_true_iff in Hk.
  apply orb_false_iff in Hk as [Hk Hg].
  apply orb_false_iff in Hk as [Hk Hh].
  apply orb_false_iff in Hk as [Hc Hu].
  induction pre as [ | p pre IH]; intros s Hpre.
  - simpl. unfold andThen. rewrite Hc, Hu, Hh, Hg.
    rewrite app_nil_r. destruct s; reflexivity.
  - simpl in Hpre. apply andb_true_iff in Hpre as [Hp Hpre].
    unfold starts in Hp. apply andb_true_iff in Hp as [Hknown Hnew].
    unfold unknownInstrument in Hknown. rewrite negb_involutive in Hknown.
    unfold newInstrument in Hnew.
    cbn [app startMetrics map]. unfold andThen at 1.
    unfold pollerOf at 1.
    destruct (Instrument p =? CounterInstrument) eqn:E1;
      [ | destruct (Instrument p =? UpDownCounterInstrument) eqn:E2;
          [ | destruct (Instrument p =? HistogramInstrument) eqn:E3;
              [ | destruct (Instrument p =? GaugeInstrument) eqn:E4;
                  [ | discriminate Hknown ] ] ] ];
      unfold andThen, orReturn, modify;
      match type of Hnew with
      | match ?r with _ => _ end = true => destruct r; [discriminate Hnew | ]
      end;
      rewrite (IH _ Hpre); cbn [smod spawned spawn];
      rewrite <- app_assoc; reflexivity.
Qed.

(** C8, as the code has it. [Validate] never looks at the metrics, so an
    unknown instrument kind is not reported at validation time. [Start]
    reports it: once its earlier steps have succeeded, it stops at the
    first metric of unknown kind and returns the single error
    "unknown instrument: k"; the pollers of the metrics before it are
    running, and nothing is aggregated. *)
Theorem unknown_instrument_fails_Start_not_Validate
  (env : Env) (m : Otel) (pre post : list Metric) (k : Metric) :
  reachesMetrics env m = true ->
  metrics m = pre ++ k :: post ->
  forallb (starts env) pre = true ->
  unknownInstrument (Instrument k) = true ->
  (forall ms, Validate (set_metrics ms m) = Validate m)
  /\ snd (Start env m) = New ("unknown instrument: " ++ fmt_d (Instrument k))
  /\ spawned (fst (Start env m)) = map pollerOf pre.
Proof.
  intros Hreach Hms Hpre Hk.
  split; [intros ms; apply Validate_ignores_metrics | ].
  unfold reachesMetrics in Hreach.
  apply andb_true_iff in Hreach as [Hreach Hme].
  apply andb_true_iff in Hreach as [Hreach Hlog].
  apply andb_true_iff in Hreach as [Hen Hhost].
  unfold Start.
  assert (Hd : allDisabled m = false).
  { unfold allDisabled. rewrite Hen. reflexivity. }
  rewrite Hd.
  destruct (os_Hostname env) as [host [e | ]]; [discriminate Hhost | ].
  rewrite Hen, Hms.
  destruct (newMetricExporter env (metricExporterProcotol m)); [discriminate Hme | ].
  destruct (enableLogExporter m).
  - simpl in Hlog. apply andb_true_iff in Hlog as [Hl Hr].
    destruct (newLogExporter env (logExporterProtocol m)); [discriminate Hl | ].
    destruct (RegisterCore env); [discriminate Hr | ].
    unfold when, andThen, orReturn, modify.
    rewrite (startMetrics_upto_unknown env k post Hk pre _ Hpre).
    split; reflexivity.
  - unfold when, andThen, orReturn, modify, skip.
    rewrite (startMetrics_upto_unknown env k post Hk pre _ Hpre).
    split; reflexivity.
Qed.

Lemma unknown_instrument_fails_Start_not_Validate_witness :
  reachesMetrics fineEnv mixedModule = true
  /\ metrics mixedModule = [requests] ++ gaugeLike :: [latency]
  /\ forallb (starts fineEnv) [requests] = true
  /\ unknownInstrument (Instrument gaugeLike) = true
  /\ (forall ms, Validate (set_metrics ms mixedModule) = Validate mixedModule)
  /\ snd (Start fineEnv mixedModule) = New "unknown instrument: 7"
  /\ spawned (fst (Start fineEnv mixedModule)) = [CounterPoller requests].
Proof.
  repeat (split; [reflexivity | ]).
  apply (@unknown_instrument_fails_Start_not_Validate
           fineEnv mixedModule [requests] [latency] gaugeLike);
    reflexivity.
Defined.

(** C8, as it is worded, fails: here the metric exporter is enabled and a
    metric has the undeclared kind 7, yet [Validate] returns nil; the
    error only shows when [Start] runs. *)
Lemma unknown_instrument_passes_Validate :
  enableMetricExporter unknownKindModule = true
  /\ In gaugeLike (metrics unknownKindModule)
  /\ unknownInstrument (Instrument gaugeLike) = true
  /\ Validate unknownKindModule = None
  /\ snd (Start fineEnv unknownKindModule) = New "unknown instrument: 7".
Proof.
  repeat split; try reflexivity. left; reflexivity.
Qed.

End OtelProps.

(* ================================================================== *)
(** * Properties of the bridge core                                    *)
(* ================================================================== *)

Module BridgeProps.
Import runtime errors zapcore logging.

Section Generic.

Context {T Tg : Type} `{ZapCore T Tg}.

Implicit Types (w : bridgeWorld T Tg) (c : call) (t : Tg).

(** *** One write *)

Lemma doWrite_internal c w :
  isInternal c = true -> doWrite c w = (None, w).
Proof.
  intros Hi. unfold doWrite, bridgeCore_Write.
  unfold isInternal in Hi. rewrite Hi. reflexivity.
Qed.

Lemma doWrite_buffering c w :
  isInternal c = false ->
  target (shared w) = None ->
  doWrite c w
  = (None,
     if (List.length (buffer (shared w)) <? capacity)%nat
     then {| shared := {| target := None;
                          buffer := buffer (shared w) ++ [logged c] |};
             backend := backend w |}
     else w).
Proof.
  intros Hi Ht. unfold doWrite, bridgeCore_Write.
  unfold isInternal in Hi. rewrite Hi, Ht.
  destruct (Nat.ltb_spec (List.length (buffer (shared w))) capacity) as [Hlt | Hge];
    unfold capacity in *.
  - replace (Z.of_nat (List.length (buffer (shared w))) <? 1000) with true
      by (symmetry; apply Z.ltb_lt; lia).
    reflexivity.
  - replace (Z.of_nat (List.length (buffer (shared w))) <? 1000) with false
      by (symmetry; apply Z.ltb_ge; lia).
    reflexivity.
Qed.

Lemma doWrite_forwarding c w t :
  isInternal c = false ->
  target (shared w) = Some t ->
  doWrite c w
  = (fst (snd (Write t (callEnt c) (fields (handle c) ++ callFields c) (backend w))),
     {| shared := shared w;
        backend := snd (snd (Write t (callEnt c)
                               (fields (handle c) ++ callFields c) (backend w))) |}).
Proof.
  intros Hi Ht. unfold doWrite, bridgeCore_Write.
  unfold isInternal in Hi. rewrite Hi, Ht.
  destruct (Write t (callEnt c) (fields (handle c) ++ callFields c) (backend w))
    as [fs' [e tw]].
  reflexivity.
Qed.

(** *** Writes before a target is attached *)

Lemma firstn_capacity_full (l l' : list bufferedLog) :
  (capacity <= List.length l)%nat ->
  firstn capacity (l ++ l') = firstn capacity l.
Proof.
  intros Hl. rewrite firstn_app.
  replace (capacity - List.length l)%nat with O by lia.
  rewrite firstn_O. apply app_nil_r.
Qed.

Lemma writeAll_buffering (cs : list call) :
  forall w,
    target (shared w) = None ->
    (List.length (buffer (shared w)) <= capacity)%nat ->
    writeAll cs w
    = {| shared := {| target := None;
                      buffer := firstn capacity
                                  (buffer (shared w)
                                   ++ map logged (filter notInternal cs)) |};
         backend := backend w |}.
Proof.
  induction cs as [ | c cs IH]; intros w Ht Hlen.
  - cbn [writeAll filter map]. rewrite app_nil_r, firstn_all2 by exact Hlen.
    destruct w as [[tg buf] tw]. simpl in Ht. subst tg. reflexivity.
  - cbn [writeAll filter]. unfold notInternal at 1.
    destruct (isInternal c) eqn:Hi; cbn [negb].
    + rewrite (doWrite_internal c w Hi). cbn [snd]. apply IH; assumption.
    + rewrite (doWrite_buffering c w Hi Ht). cbn [snd map].
      destruct (Nat.ltb_spec (List.length (buffer (shared w))) capacity) as [Hlt | Hge].
      * rewrite IH; cbn [shared target buffer backend].
        -- rewrite <- app_assoc. reflexivity.
        -- reflexivity.
        -- rewrite length_app. cbn [List.length]. lia.
      * rewrite (IH w Ht Hlen).
        rewrite !firstn_app.
        replace (capacity - List.length (buffer (shared w)))%nat with O by lia.
        rewrite !firstn_O. reflexivity.
Qed.

(** The three ways a write can go: dropped for its internal key, forwarded
    to the target, or offered to the buffer. *)
Ltac write_cases c w :=
  let Hi := fresh "Hi" in
  let Ht := fresh "Ht" in
  destruct (isInternal c) eqn:Hi;
  [ rewrite (doWrite_internal c w Hi)
  | destruct (target (shared w)) eqn:Ht;
    [ rewrite (doWrite_forwarding c w Hi Ht)
    | rewrite (doWrite_buffering c w Hi Ht) ] ].

Lemma anyStep_keeps_bound w w' :
  anyStep w w' ->
  (List.length (buffer (shared w)) <= capacity)%nat ->
  (List.length (buffer (shared w')) <= capacity)%nat.
Proof.
  intros Hstep Hlen. destruct Hstep as [w w' Huse | core w w' Hset].
  - destruct Huse as [c w | b w].
    + write_cases c w; cbn [snd]; try exact Hlen.
      destruct (Nat.ltb_spec (List.length (buffer (shared w))) capacity).
      * cbn [shared buffer]. rewrite length_app. cbn [List.length]. lia.
      * exact Hlen.
    + unfold bridgeCore_Sync. destruct (target (shared w)) as [t | ].
      * destruct (Sync t (backend w)). exact Hlen.
      * exact Hlen.
  - unfold SetTarget in Hset. destruct core as [t | ].
    + injection Hset as <-. apply Nat.le_0_l.
    + destruct (buffer (shared w)); [ | discriminate Hset].
      injection Hset as <-. apply Nat.le_0_l.
Qed.

(** [SetTarget] with a nil core: nothing to replay and the bridge goes on
    buffering, or a panic at the first buffered entry. *)
Lemma SetTarget_nil w :
  SetTarget None w
  = match buffer (shared w) with
    | [] => Returns {| shared := {| target := None; buffer := [] |};
                       backend := backend w |}
    | _ :: _ => Panics
    end.
Proof. reflexivity. Qed.

(** *** Writes after a target is attached *)

Lemma useStep_keeps_attached t w w' :
  useStep w w' ->
  shared w = {| target := Some t; buffer := [] |} ->
  shared w' = {| target := Some t; buffer := [] |}.
Proof.
  intros Hstep Hs. destruct Hstep as [c w | b w].
  - write_cases c w; cbn [snd shared]; try exact Hs.
    rewrite Hs in Ht. discriminate Ht.
  - unfold bridgeCore_Sync. rewrite Hs. cbn [target].
    destruct (Sync t (backend w)). reflexivity.
Qed.

(** C2. Once [SetTarget] has returned with a target [t], and whatever is
    written or synced through the handles afterwards, the shared state
    keeps [t] as its target and an empty buffer, and a write of an entry
    that carries no internal key is the target's [Write] on that entry
    with the handle's and the call's fields: it returns what the target
    returns and changes nothing but the target's own state. *)
Theorem attached_bridge_forwards t (w0 w1 : bridgeWorld T Tg) :
  SetTarget (Some t) w0 = Returns w1 ->
  forall w,
    steps useStep w1 w ->
    shared w = {| target := Some t; buffer := [] |}
    /\ forall c,
        isInternal c = false ->
        doWrite c w
        = (fst (snd (Write t (callEnt c) (fields (handle c) ++ callFields c)
                       (backend w))),
           {| shared := {| target := Some t; buffer := [] |};
              backend := snd (snd (Write t (callEnt c)
                                     (fields (handle c) ++ callFields c)
                                     (backend w))) |}).
Proof.
  intros Hset w Hsteps.
  assert (Hs : shared w = {| target := Some t; buffer := [] |}).
  { induction Hsteps as [ | w1 w w' _ IH Hstep].
    - unfold SetTarget in Hset. injection Hset as <-. reflexivity.
    - apply (useStep_keeps_attached Hstep). apply IH. exact Hset. }
  split; [exact Hs | ].
  intros c Hi.
  rewrite (@doWrite_forwarding c w t Hi) by (rewrite Hs; reflexivity).
  rewrite Hs. reflexivity.
Qed.

(** Over a whole sequence of writes: the target has seen, in order, the
    entries without an internal key, and nothing has been buffered. *)
Lemma writeAll_forwarding t (cs : list call) :
  forall w,
    shared w = {| target := Some t; buffer := [] |} ->
    writeAll cs w
    = {| shared := {| target := Some t; buffer := [] |};
         backend := forwardAll t (filter notInternal cs) (backend w) |}.
Proof.
  induction cs as [ | c cs IH]; intros w Hs.
  - cbn. destruct w as [sh tw]. cbn in Hs. subst sh. reflexivity.
  - cbn [writeAll filter]. unfold notInternal at 1.
    write_cases c w; cbn [negb snd forwardAll].
    + apply IH. exact Hs.
    + rewrite Hs in Ht. injection Ht as <-.
      rewrite IH by exact Hs. reflexivity.
    + rewrite Hs in Ht. discriminate Ht.
Qed.

(** C4. A write whose combined fields, those of the handle followed by
    those of the call, hold a field with the internal key returns nil and
    leaves the world as it was: nothing is added to the buffer and the
    attached core, if there is one, is not called. *)
Theorem internal_entry_is_dropped (b : bridgeCore) (e : Entry)
  (fs : list Field) w :
  (exists f, In f (fields b ++ fs) /\ Key f = internalKey) ->
  bridgeCore_Write b e fs w = (fs, (None, w)).
Proof.
  intros [f [Hin Hkey]]. unfold bridgeCore_Write.
  replace (hasInternalKey (fields b ++ fs)) with true; [reflexivity | ].
  symmetry. unfold hasInternalKey. apply existsb_exists.
  exists f. split; [exact Hin | ]. rewrite Hkey. apply String.eqb_refl.
Qed.

End Generic.

(** *** A recording core as the target *)

Lemma freshWorld_is_new (lvl : Lvl -> bool) (log : list LoggedEntry) :
  shared (freshWorld log) = snd (@newBridgeCore observer lvl).
Proof. reflexivity. Qed.

Lemma replay_observer (o : observer) (logs : list bufferedLog) :
  forall log : list LoggedEntry,
    replay o logs log = log ++ map (seenBy o) (filter (passes o) logs).
Proof.
  induction logs as [ | l logs IH]; intros log.
  - cbn. now rewrite app_nil_r.
  - cbn [replay filter]. unfold passes at 1.
    cbn [Check observer_Core].
    destruct (obsEnab o (Level (ent l))); cbn [runCheck fold_left AddCore fst snd].
    + unfold CheckedEntry_Write, observer_Write. cbn [cores ceEntry writeCores snd].
      rewrite IH. cbn [map]. unfold seenBy at 2.
      rewrite <- app_assoc. reflexivity.
    + apply IH.
Qed.

Lemma SetTarget_after_writes (o : observer) (cs : list call)
  (log0 : list LoggedEntry) :
  SetTarget (Some o) (writeAll cs (freshWorld log0))
  = Returns
      {| shared := {| target := Some o; buffer := [] |};
         backend := log0 ++ map (seenBy o)
                              (filter (passes o)
                                 (firstn capacity
                                    (map logged (filter notInternal cs)))) |}.
Proof.
  rewrite writeAll_buffering by (cbn; unfold capacity; try reflexivity; lia).
  unfold SetTarget. cbn [shared buffer backend freshWorld app].
  rewrite replay_observer. reflexivity.
Qed.

Lemma filter_all {A} (p : A -> bool) (l : list A) :
  forallb p l = true -> filter p l = l.
Proof.
  induction l as [ | a l IH]; cbn; [reflexivity | ].
  intros Hall. apply andb_true_iff in Hall as [Ha Hl].
  rewrite Ha, (IH Hl). reflexivity.
Qed.

(** C1. Entries without an internal key, at most 1000 of them, are written
    through handles of a new bridge before a target is attached. Attaching
    a recording core then makes its log grow by exactly those entries, each
    with its fields, in the order they were written and once each, less
    the ones its own [Check] turns down. The buffer is empty afterwards,
    so attaching again shows the core nothing more. *)
Theorem replay_preserves_order (o : observer) (cs : list call)
  (log0 : list LoggedEntry) :
  (List.length cs <= capacity)%nat ->
  forallb notInternal cs = true ->
  let attached :=
    {| shared := {| target := Some o; buffer := [] |};
       backend := log0 ++ map (seenBy o) (filter (passes o) (map logged cs)) |} in
  SetTarget (Some o) (writeAll cs (freshWorld log0)) = Returns attached
  /\ SetTarget (Some o) attached = Returns attached.
Proof.
  intros Hlen Hall attached. subst attached. split.
  - rewrite SetTarget_after_writes, (filter_all _ _ Hall).
    rewrite firstn_all2 by (rewrite length_map; exact Hlen).
    reflexivity.
  - reflexivity.
Qed.

(** C3. Before a target is attached a write returns nil, and it appends
    its entry to the buffer only when the entry carries no internal key
    and the buffer holds fewer than 1000 entries; otherwise the buffer is
    left as it is. From a new bridge on, whatever methods are called, the
    buffer never holds more than 1000 entries. After 1001 writes of
    entries without an internal key, attaching a core replays the first
    1000 of them, exactly 1000 entries. *)
Theorem buffer_holds_at_most_1000 :
  (forall (T Tg : Type) (H : ZapCore T Tg) (c : call) (w : bridgeWorld T Tg),
      target (shared w) = None ->
      fst (doWrite c w) = None
      /\ backend (snd (doWrite c w)) = backend w
      /\ target (shared (snd (doWrite c w))) = None
      /\ buffer (shared (snd (doWrite c w)))
         = if notInternal c && (List.length (buffer (shared w)) <? 1000)%nat
           then buffer (shared w) ++ [logged c]
           else buffer (shared w))
  /\ (forall (T Tg : Type) (H : ZapCore T Tg) (tw : T) (w : bridgeWorld T Tg),
        steps anyStep (freshWorld tw) w ->
        (List.length (buffer (shared w)) <= 1000)%nat)
  /\ (forall (o : observer) (cs : list call) (log0 : list LoggedEntry),
        List.length cs = 1001%nat ->
        forallb notInternal cs = true ->
        let replayed := firstn 1000 (map logged cs) in
        List.length replayed = 1000%nat
        /\ SetTarget (Some o) (writeAll cs (freshWorld log0))
           = Returns
               {| shared := {| target := Some o; buffer := [] |};
                  backend := log0 ++ map (seenBy o) (filter (passes o) replayed) |}).
Proof.
  change 1000%nat with capacity.
  split; [ | split].
  - intros T Tg H c w Ht. unfold notInternal.
    destruct (isInternal c) eqn:Hi; cbn [negb andb].
    + rewrite (doWrite_internal c w Hi). cbn [fst snd]. auto.
    + rewrite (doWrite_buffering c w Hi Ht). cbn [fst snd].
      destruct (List.length (buffer (shared w)) <? capacity)%nat;
        cbn [shared buffer backend target]; auto.
  - intros T Tg H tw w Hsteps.
    remember (freshWorld tw) as w0 eqn:Hw0.
    induction Hsteps as [ | w0 w w' _ IH Hstep].
    + subst w. apply Nat.le_0_l.
    + exact (anyStep_keeps_bound Hstep (IH Hw0)).
  - intros o cs log0 Hlen Hall replayed. subst replayed. split.
    + rewrite length_firstn, length_map, Hlen. unfold capacity. lia.
    + rewrite SetTarget_after_writes, (filter_all _ _ Hall). reflexivity.
Qed.


(** *** The theorems at work *)

Lemma replay_preserves_order_witness :
  (List.length (callsFrom 0 3) <= capacity)%nat
  /\ forallb notInternal (callsFrom 0 3) = true
  /\ SetTarget (Some recorder) (writeAll (callsFrom 0 3) (freshWorld []))
     = Returns
         {| shared := {| target := Some recorder; buffer := [] |};
            backend := [ (entryAt InfoLevel "request", [intField "count" 0]);
                         (entryAt InfoLevel "request", [intField "count" 1]);
                         (entryAt InfoLevel "request", [intField "count" 2]) ] |}.
Proof.
  assert (Hlen : (List.length (callsFrom 0 3) <= capacity)%nat)
    by (unfold capacity; simpl; lia).
  assert (Hall : forallb notInternal (callsFrom 0 3) = true) by reflexivity.
  split; [exact Hlen | split; [exact Hall | ]].
  exact (proj1 (replay_preserves_order recorder (callsFrom 0 3) [] Hlen Hall)).
Defined.

Lemma attached_bridge_forwards_witness :
  let w1 := {| shared := {| target := Some recorder; buffer := [] |};
               backend := [ (entryAt InfoLevel "request", [intField "count" 0]) ] |} in
  SetTarget (Some recorder) (writeAll (callsFrom 0 1) (freshWorld [])) = Returns w1
  /\ isInternal (oneCall 2) = false
  /\ doWrite (oneCall 2) (snd (doWrite (oneCall 1) w1))
     = (None,
        {| shared := {| target := Some recorder; buffer := [] |};
           backend := [ (entryAt InfoLevel "request", [intField "count" 0]);
                        (entryAt InfoLevel "request", [intField "count" 1]);
                        (entryAt InfoLevel "request", [intField "count" 2]) ] |}).
Proof.
  intros w1.
  assert (Hset : SetTarget (Some recorder) (writeAll (callsFrom 0 1) (freshWorld []))
                 = Returns w1) by reflexivity.
  split; [exact Hset | split; [reflexivity | ]].
  refine (proj2 (@attached_bridge_forwards _ _ _ recorder _ w1 Hset _ _)
            (oneCall 2) eq_refl).
  eapply steps_snoc; [apply steps_refl | apply use_Write].
Defined.

Lemma buffer_holds_at_most_1000_witness :
  List.length (callsFrom 0 1001) = 1001%nat
  /\ forallb notInternal (callsFrom 0 1001) = true
  /\ List.length (firstn 1000 (map logged (callsFrom 0 1001))) = 1000%nat
  /\ SetTarget (Some recorder) (writeAll (callsFrom 0 1001) (freshWorld []))
     = Returns
         {| shared := {| target := Some recorder; buffer := [] |};
            backend := [] ++ map (seenBy recorder)
                               (filter (passes recorder)
                                  (firstn 1000 (map logged (callsFrom 0 1001)))) |}.
Proof.
  assert (Hlen : List.length (callsFrom 0 1001) = 1001%nat) by (vm_compute; reflexivity).
  assert (Hall : forallb notInternal (callsFrom 0 1001) = true) by (vm_compute; reflexivity).
  split; [exact Hlen | split; [exact Hall | ]].
  exact (proj2 (proj2 buffer_holds_at_most_1000) recorder (callsFrom 0 1001) [] Hlen Hall).
Defined.

Lemma internal_entry_is_dropped_witness :
  (exists f, In f (fields internalHandle ++ [intField "count" 1])
             /\ Key f = internalKey)
  /\ forall w : bridgeWorld (list LoggedEntry) observer,
      bridgeCore_Write internalHandle (entryAt ErrorLevel "export failed")
        [intField "count" 1] w
      = ([intField "count" 1], (None, w)).
Proof.
  assert (Hint : exists f, In f (fields internalHandle ++ [intField "count" 1])
                           /\ Key f = internalKey).
  { exists (boolField internalKey true). split; [left | ]; reflexivity. }
  split; [exact Hint | ].
  intros w.
  exact (@internal_entry_is_dropped (list LoggedEntry) observer _ internalHandle
           (entryAt ErrorLevel "export failed") [intField "count" 1] w Hint).
Defined.

End BridgeProps.

(* ================================================================== *)
(** * Properties of the root core                                      *)
(* ================================================================== *)

Module RootProps.
Import errors zapcore logging.

Section Generic.

Context {W C : Type} `{ZapCore W C}.

Lemma prefixFields_keys (p : string) (fs : list Field) :
  map Key (prefixFields p fs) = map (fun f => ((p ++ "_") ++ Key f)%string) fs.
Proof.
  unfold prefixFields. rewrite map_map. reflexivity.
Qed.

Lemma prefixFields_values (p : string) (fs : list Field) :
  map (fun f => (FieldType f, Integer f, Str f)) (prefixFields p fs)
  = map (fun f => (FieldType f, Integer f, Str f)) fs.
Proof.
  unfold prefixFields. rewrite map_map. reflexivity.
Qed.

(** C9. The floor is [zapcore.DebugLevel]. Whatever the level of the entry
    given to the root core, the entry that reaches the embedded core, by
    [Write] or by way of [Check] and the checked entry's write, is the same
    entry with its level raised to the floor when it was below it and left
    alone otherwise: never below the floor, and at the floor for an entry
    that came in below it. *)
Theorem root_core_clamps_level (c : rootCore C) (entry : Entry)
  (fs : list Field) (w : W) :
  exists e' : Entry,
    Level e' = Z.max DebugLevel (Level entry)
    /\ DebugLevel <= Level e'
    /\ (Level entry < DebugLevel -> e' = setLevel DebugLevel entry)
    /\ (DebugLevel <= Level entry -> e' = entry)
    /\ (exists fs', rootCore_Write c entry fs w = Write (Core c) e' fs' w)
    /\ rootCore_Check c entry w
       = (if Enabled (Core c) (Level e') w then [(e', rootCore_Write c)] else [])
    /\ (forall fs2 w2, exists fs', rootCore_Write c e' fs2 w2 = Write (Core c) e' fs' w2).
Proof.
  unfold rootCore_Check, rootCore_Enabled, rootCore_Write.
  destruct (Z.ltb_spec (Level entry) DebugLevel) as [Hlt | Hge].
  - exists (setLevel DebugLevel entry). cbn [Level setLevel].
    repeat split; try reflexivity; try lia; try (eexists; reflexivity).
  - exists entry.
    destruct (Z.ltb_spec (Level entry) DebugLevel) as [Hlt | _]; [lia | ].
    repeat split; try reflexivity; try lia; try (eexists; reflexivity).
Qed.

(** X22. One root core with a prefix [p] that is not empty: the fields the
    embedded core receives from [Write] are the fields of the slice the
    root core is handed, with every key rewritten to [p_key] and nothing
    else changed. [With] hands the embedded core's [With] the fields
    rewritten in the same way, and the handle it returns keeps the prefix,
    so that the fields of a later call on that handle are rewritten too. *)
Theorem root_core_prefixes_keys (c : rootCore C) (entry : Entry)
  (fs fs2 : list Field) (w : W) :
  fieldsPrefix c <> "" ->
  let p := fieldsPrefix c in
  let derived := snd (rootCore_With c fs) in
  map Key (prefixFields p fs) = map (fun f => ((p ++ "_") ++ Key f)%string) fs
  /\ map (fun f => (FieldType f, Integer f, Str f)) (prefixFields p fs)
     = map (fun f => (FieldType f, Integer f, Str f)) fs
  /\ (exists e', rootCore_Write c entry fs w = Write (Core c) e' (prefixFields p fs) w)
  /\ Core derived = snd (With (Core c) (prefixFields p fs))
  /\ fieldsPrefix derived = p
  /\ (exists e', rootCore_Write derived entry fs2 w
                 = Write (snd (With (Core c) (prefixFields p fs))) e'
                     (prefixFields p fs2) w).
Proof.
  intros Hp p derived.
  assert (Hne : negb (fieldsPrefix c =? "")%string = true).
  { apply negb_true_iff, String.eqb_neq. exact Hp. }
  assert (Hd : derived = {| Core := snd (With (Core c) (prefixFields p fs));
                            fieldsPrefix := p |}).
  { subst derived. unfold rootCore_With. rewrite Hne.
    fold p. destruct (With (Core c) (prefixFields p fs)). reflexivity. }
  split; [apply prefixFields_keys | ].
  split; [apply prefixFields_values | ].
  split; [unfold rootCore_Write; rewrite Hne; eexists; reflexivity | ].
  rewrite Hd. cbn [Core fieldsPrefix].
  split; [reflexivity | split; [reflexivity | ]].
  unfold rootCore_Write. cbn [Core fieldsPrefix]. subst p. rewrite Hne.
  eexists. reflexivity.
Qed.

End Generic.

Lemma root_core_prefixes_keys_witness :
  fieldsPrefix appRoot <> ""
  /\ map Key (prefixFields "app" [intField "count" 1]) = ["app_count"]
  /\ snd (snd (rootCore_Write appRoot (entryAt InfoLevel "request")
                 [intField "count" 1] []))
     = [ (entryAt InfoLevel "request", [intField "app_count" 1]) ]
  /\ snd (snd (rootCore_Write (snd (rootCore_With appRoot [intField "count" 1]))
                 (entryAt InfoLevel "request") [intField "size" 2] []))
     = [ (entryAt InfoLevel "request",
          [intField "app_count" 1; intField "app_size" 2]) ].
Proof.
  assert (Hp : fieldsPrefix appRoot <> "") by discriminate.
  destruct (root_core_prefixes_keys appRoot (entryAt InfoLevel "request")
              [intField "count" 1] [intField "size" 2] [] Hp)
    as [Hkeys [_ [[e1 Hw] [_ [_ [e2 Hd]]]]]].
  split; [exact Hp | ].
  split; [exact Hkeys | ].
  split; reflexivity.
Defined.

(** The keys are rewritten in the slice the caller passed: after [Write]
    has returned the caller's fields carry the prefix. *)
Lemma rootCore_Write_rewrites_in_place (o : observer) (p : string)
  (entry : Entry) (fs : list Field) (log : list LoggedEntry) :
  p <> "" ->
  fst (rootCore_Write {| Core := o; fieldsPrefix := p |} entry fs log)
  = prefixFields p fs.
Proof.
  intros Hp. unfold rootCore_Write. cbn [fieldsPrefix Core].
  replace (negb (p =? "")%string) with true
    by (symmetry; apply negb_true_iff, String.eqb_neq; exact Hp).
  reflexivity.
Qed.

(** Hence, when one checked entry holds two root cores, as under a tee of
    two root cores, its write gives the second one the slice the first one
    has already rewritten, and the second embedded core receives keys that
    carry the prefix twice. *)
Lemma shared_slice_is_prefixed_twice :
  snd (writeCores [rootCore_Write appRoot; rootCore_Write appRoot]
         (entryAt InfoLevel "request") [intField "count" 1] [])
  = [ (entryAt InfoLevel "request", [intField "app_count" 1]);
      (entryAt InfoLevel "request", [intField "app_app_count" 1]) ].
Proof. reflexivity. Qed.

(** A root core over the bridge, a recording core attached: an entry below
    the floor with a field "count" reaches the recording core at the floor
    and with the key "app_count". *)
Lemma root_over_bridge_example :
  snd (snd (rootCore_Write appBridgeRoot (entryAt (-2) "trace")
              [intField "count" 1]
              {| shared := {| target := Some recorder; buffer := [] |};
                 backend := [] |}))
  = {| shared := {| target := Some recorder; buffer := [] |};
       backend := [ (entryAt DebugLevel "trace", [intField "app_count" 1]) ] |}.
Proof. reflexivity. Qed.

End RootProps.

(* ================================================================== *)
(** * Further properties of the OpenTelemetry module                   *)
(* ================================================================== *)

Module OtelMore.
Import runtime errors gotenberg otel.

(** ** The metrics loop *)

Lemma startMetrics_step (env : Env) (k : Metric) (rest : list Metric)
  (s : StartState) :
  (starts env k = true
   /\ startMetrics env (k :: rest) s
      = startMetrics env rest (spawn (pollerOf k) s))
  \/ (starts env k = false
      /\ exists e, startMetrics env (k :: rest) s = (s, Some e)).
Proof.
  unfold starts, unknownInstrument, newInstrument, pollerOf.
  cbn [startMetrics]. unfold andThen at 1.
  destruct (Instrument k =? CounterInstrument);
    [ | destruct (Instrument k =? UpDownCounterInstrument);
        [ | destruct (Instrument k =? HistogramInstrument);
            [ | destruct (Instrument k =? GaugeInstrument) ] ] ];
    cbn [orb negb andb];
    unfold andThen, orReturn, modify, Errorf_w, New;
    try match goal with
        | |- context [match ?r with Some _ => _ | None => _ end] =>
            destruct r as [e0 | ]
        end;
    cbn [andb];
    first [ left; split; reflexivity
          | right; split; [reflexivity | eexists; reflexivity] ].
Qed.

Lemma startMetrics_shape (env : Env) (ms : list Metric) :
  forall s : StartState,
  exists pre post : list Metric,
    ms = pre ++ post
    /\ forallb (starts env) pre = true
    /\ fst (startMetrics env ms s)
       = {| smod := smod s; spawned := spawned s ++ map pollerOf pre |}
    /\ ((post = [] /\ snd (startMetrics env ms s) = None)
        \/ (exists k post' e,
               post = k :: post' /\ starts env k = false
               /\ snd (startMetrics env ms s) = Some e)).
Proof.
  induction ms as [ | k rest IH]; intros s.
  - exists [], []. cbn [startMetrics map app forallb]. unfold skip.
    cbn [fst snd]. rewrite app_nil_r. destruct s.
    repeat split. left. split; reflexivity.
  - destruct (startMetrics_step env k rest s) as [[Hk Heq] | [Hk [e Heq]]].
    + destruct (IH (spawn (pollerOf k) s)) as [pre [post [Hms [Hpre [Hfst Hsnd]]]]].
      exists (k :: pre), post. rewrite Heq.
      split; [cbn; now rewrite Hms | ].
      split; [cbn; now rewrite Hk, Hpre | ].
      split; [ | exact Hsnd].
      rewrite Hfst. cbn [spawn smod spawned map].
      rewrite <- app_assoc. reflexivity.
    + exists [], (k :: rest). rewrite Heq. cbn [fst snd map].
      rewrite app_nil_r. destruct s.
      split; [reflexivity | split; [reflexivity | split; [reflexivity | ]]].
      right. exists k, rest, e. auto.
Qed.

Lemma startMetrics_all (env : Env) (ms : list Metric) (s : StartState) :
  forallb (starts env) ms = true ->
  startMetrics env ms s
  = ({| smod := smod s; spawned := spawned s ++ map pollerOf ms |}, None).
Proof.
  revert s. induction ms as [ | k rest IH]; intros s Hall.
  - cbn [startMetrics map]. unfold skip. rewrite app_nil_r.
    destruct s. reflexivity.
  - cbn in Hall. apply andb_true_iff in Hall as [Hk Hrest].
    destruct (startMetrics_step env k rest s) as [[_ Heq] | [Hk' _]];
      [ | congruence].
    rewrite Heq, (IH _ Hrest). cbn [spawn smod spawned map].
    rewrite <- app_assoc. reflexivity.
Qed.

Lemma startMetrics_some (env : Env) (ms : list Metric) (s : StartState) :
  forallb (starts env) ms = false ->
  exists pre k post e,
    ms = pre ++ k :: post
    /\ forallb (starts env) pre = true
    /\ starts env k = false
    /\ startMetrics env ms s
       = ({| smod := smod s; spawned := spawned s ++ map pollerOf pre |}, Some e).
Proof.
  intros Hall.
  destruct (startMetrics_shape env ms s)
    as [pre [post [Hms [Hpre [Hfst [[Hpost Hsnd] | [k [post' [e [Hpost [Hk Hsnd]]]]]]]]]]].
  - subst post. rewrite app_nil_r in Hms. subst pre. congruence.
  - exists pre, k, post', e. subst post.
    repeat split; try assumption.
    rewrite <- Hfst, <- Hsnd. apply surjective_pairing.
Qed.

(** ** Start *)

(** Unfolds [Start] and splits on the flags and on what the outside calls
    return; the metrics loop is then replaced by what it evaluates to. *)
Ltac start_cases env m :=
  unfold Start, allDisabled, startsCleanly, logStepsOk, metricStepsOk,
    spanStepsOk, resourceOf, isNil, settings;
  destruct (os_Hostname env) as [host [eh | ]];
  destruct (enableLogExporter m) eqn:El;
  destruct (enableMetricExporter m) eqn:Em;
  destruct (enableSpanExporter m) eqn:Es;
  destruct (newLogExporter env (logExporterProtocol m)) as [el | ];
  destruct (RegisterCore env) as [er | ];
  destruct (newMetricExporter env (metricExporterProcotol m)) as [em | ];
  destruct (newSpanExporter env (spanExporterProtocol m)) as [es | ];
  unfold when, andThen, orReturn, modify, skip, Errorf_w;
  cbn [negb andb orb fst snd];
  try rewrite El; try rewrite Em; try rewrite Es;
  cbn [negb andb orb fst snd];
  try match goal with
      | |- context [startMetrics env (metrics m) ?S] =>
          let Hf := fresh "Hf" in
          let Hsm := fresh "Hsm" in
          let Hms := fresh "Hms" in
          let Hpre := fresh "Hpre" in
          let Hk := fresh "Hk" in
          let pre := fresh "pre" in
          let k := fresh "k" in
          let post := fresh "post" in
          let e := fresh "e" in
          destruct (forallb (starts env) (metrics m)) eqn:Hf;
          [ rewrite (startMetrics_all env (metrics m) S Hf)
          | destruct (startMetrics_some env (metrics m) S Hf)
              as [pre [k [post [e [Hms [Hpre [Hk Hsm]]]]]]];
            rewrite Hsm ]
      end;
  cbn [negb andb orb fst snd smod spawned app
       set_otlpLoggerProvider set_otlpMeterProvider set_otlpTracerProvider
       serviceName logExporterProtocol enableLogExporter metricExporterProcotol
       metricsCollectInterval enableMetricExporter spanExporterProtocol
       enableSpanExporter metrics otlpLoggerProvider otlpMeterProvider
       otlpTracerProvider otlpTracer].

(** X1. [Start] returns nil exactly when no exporter is enabled or every
    step it takes succeeds: the host name, and for each enabled exporter
    its construction, for logs the registration of the core, for metrics
    an instrument of a declared kind for every metric. In the second case
    one poller per metric is running, in the order of the metrics, each
    provider of an enabled exporter is set with the resource of this
    service, version and host, and the tracer is set when spans are
    enabled. *)
Theorem Start_returns_nil_exactly_when_every_step_succeeds
  (env : Env) (m : Otel) :
  (snd (Start env m) = None
   <-> allDisabled m = true \/ startsCleanly env m = true)
  /\ (allDisabled m = false -> startsCleanly env m = true ->
      let s := fst (Start env m) in
      spawned s = (if enableMetricExporter m then map pollerOf (metrics m) else [])
      /\ otlpLoggerProvider (smod s)
         = (if enableLogExporter m then Some (resourceOf env m)
            else otlpLoggerProvider m)
      /\ otlpMeterProvider (smod s)
         = (if enableMetricExporter m then Some (resourceOf env m)
            else otlpMeterProvider m)
      /\ otlpTracerProvider (smod s)
         = (if enableSpanExporter m then Some (resourceOf env m)
            else otlpTracerProvider m)
      /\ otlpTracer (smod s)
         = (if enableSpanExporter m then Some {| tracerName := serviceName m |}
            else otlpTracer m)).
Proof.
  split.
  - start_cases env m;
      (split; [ intros Hnil; try discriminate Hnil; auto
              | intros [Hx | Hx]; try discriminate Hx; reflexivity ]).
  - start_cases env m; intros Hx Hy; try discriminate Hx; try discriminate Hy;
      repeat split; reflexivity.
Qed.

Lemma Start_returns_nil_exactly_when_every_step_succeeds_witness :
  allDisabled fullModule = false
  /\ startsCleanly fineEnv fullModule = true
  /\ snd (Start fineEnv fullModule) = None
  /\ spawned (fst (Start fineEnv fullModule))
     = [CounterPoller requests; HistogramPoller latency]
  /\ otlpTracer (smod (fst (Start fineEnv fullModule)))
     = Some {| tracerName := "gotenberg" |}.
Proof.
  assert (Hd : allDisabled fullModule = false) by reflexivity.
  assert (Hc : startsCleanly fineEnv fullModule = true) by reflexivity.
  destruct (Start_returns_nil_exactly_when_every_step_succeeds fineEnv fullModule)
    as [Hiff Hstate].
  destruct (Hstate Hd Hc) as [Hsp [_ [_ [_ Htr]]]].
  split; [exact Hd | split; [exact Hc | ]].
  split; [apply Hiff; right; exact Hc | ].
  split; [exact Hsp | exact Htr].
Defined.


(** X2. Whatever the outside calls return, [Start] leaves the settings of
    the module as they are: the service name, the three protocols and
    flags, the collect interval and the metrics. *)
Theorem Start_keeps_the_settings (env : Env) (m : Otel) :
  settings (smod (fst (Start env m))) = settings m.
Proof.
  start_cases env m; rewrite ?El, ?Em, ?Es; reflexivity.
Qed.

(** X3. Whatever the outcome of [Start], the pollers it has started are
    those of a leading part of the metrics, in their order, every one of
    a declared kind with its instrument created: no poller runs for a
    metric that comes after one that failed, and none at all when the
    metric exporter is disabled. *)
Theorem Start_pollers_follow_the_metrics (env : Env) (m : Otel) :
  exists pre post : list Metric,
    metrics m = pre ++ post
    /\ forallb (starts env) pre = true
    /\ spawned (fst (Start env m)) = map pollerOf pre
    /\ (enableMetricExporter m = false -> pre = [])
    /\ (snd (Start env m) = None -> enableMetricExporter m = true -> post = []).
Proof.
  start_cases env m;
    first
      [ exists pre, (k :: post);
        repeat split; try assumption; try reflexivity; intros; discriminate
      | exists (metrics m), [];
        repeat split; try assumption; try reflexivity;
        try (symmetry; apply app_nil_r); intros; discriminate
      | exists [], (metrics m);
        repeat split; try reflexivity; intros; discriminate ].
Qed.

(** X4. [Start] does not undo what it has built when a later step fails:
    when the host name, the log steps and the metric steps succeed and the
    span exporter cannot be built, [Start] returns that error wrapped,
    while the logger and meter providers stay set and every poller keeps
    running; the tracer provider and the tracer are as before. *)
Theorem Start_does_not_undo_earlier_steps (env : Env) (m : Otel) (e : err) :
  isNil (snd (os_Hostname env)) = true ->
  logStepsOk env m = true ->
  metricStepsOk env m = true ->
  enableSpanExporter m = true ->
  newSpanExporter env (spanExporterProtocol m) = Some e ->
  let s := fst (Start env m) in
  snd (Start env m) = Some (WrapError "OTLP span exporter: " e)
  /\ spawned s = (if enableMetricExporter m then map pollerOf (metrics m) else [])
  /\ otlpLoggerProvider (smod s)
     = (if enableLogExporter m then Some (resourceOf env m)
        else otlpLoggerProvider m)
  /\ otlpMeterProvider (smod s)
     = (if enableMetricExporter m then Some (resourceOf env m)
        else otlpMeterProvider m)
  /\ otlpTracerProvider (smod s) = otlpTracerProvider m
  /\ otlpTracer (smod s) = otlpTracer m.
Proof.
  intros Hh Hl Hm Hs He. revert Hh Hl Hm Hs He.
  start_cases env m; intros Hh Hl Hm Hs He;
    try discriminate Hh; try discriminate Hl; try discriminate Hm;
    try discriminate Hs; try discriminate He;
    injection He as <-; repeat split; reflexivity.
Qed.

Lemma Start_does_not_undo_earlier_steps_witness :
  isNil (snd (os_Hostname noSpanEnv)) = true
  /\ logStepsOk noSpanEnv fullModule = true
  /\ metricStepsOk noSpanEnv fullModule = true
  /\ enableSpanExporter fullModule = true
  /\ snd (Start noSpanEnv fullModule)
     = Some (WrapError "OTLP span exporter: "
               (WrapError "create OTLP gRPC span exporter: "
                  (ErrorString "connection refused")))
  /\ spawned (fst (Start noSpanEnv fullModule))
     = [CounterPoller requests; HistogramPoller latency]
  /\ otlpLoggerProvider (smod (fst (Start noSpanEnv fullModule)))
     = Some {| ServiceName := "gotenberg"; ServiceVersion := "8"; HostName := "host" |}
  /\ otlpTracer (smod (fst (Start noSpanEnv fullModule))) = None.
Proof.
  do 4 (split; [reflexivity | ]).
  destruct (@Start_does_not_undo_earlier_steps noSpanEnv fullModule
              (WrapError "create OTLP gRPC span exporter: "
                 (ErrorString "connection refused"))
              eq_refl eq_refl eq_refl eq_refl eq_refl)
    as [Herr [Hsp [Hlog [_ [_ Htr]]]]].
  split; [exact Herr | split; [exact Hsp | split; [exact Hlog | exact Htr]]].
Defined.

(** X5. With the span exporter enabled and no tracer yet, [TraceStart]
    panics; after [Start] it returns a span of the given name, from the
    tracer named after the service, exactly when [Start] returned nil, and
    still panics when [Start] failed. *)
Theorem TraceStart_works_only_after_Start_succeeded
  (env : Env) (m : Otel) (c : Context) (name : string) :
  enableSpanExporter m = true ->
  otlpTracer m = None ->
  TraceStart m c name = Panics
  /\ TraceStart (smod (fst (Start env m))) c name
     = (if isNil (snd (Start env m))
        then Returns (Tracer_Start {| tracerName := serviceName m |} c name)
        else Panics).
Proof.
  intros Hs Ht. split.
  - unfold TraceStart. rewrite Hs, Ht. reflexivity.
  - revert Hs. unfold TraceStart.
    start_cases env m; intros Hs; try discriminate Hs;
      try rewrite Es; try rewrite Ht; reflexivity.
Qed.

Lemma TraceStart_works_only_after_Start_succeeded_witness :
  enableSpanExporter fullModule = true
  /\ otlpTracer fullModule = None
  /\ TraceStart fullModule (Some Background) "convert" = Panics
  /\ TraceStart (smod (fst (Start fineEnv fullModule))) (Some Background) "convert"
     = Returns (Some (WithSpan {| spanTracer := "gotenberg"; spanName := "convert" |}
                        Background),
                Some {| spanTracer := "gotenberg"; spanName := "convert" |})
  /\ TraceStart (smod (fst (Start noSpanEnv fullModule))) (Some Background) "convert"
     = Panics.
Proof.
  split; [reflexivity | split; [reflexivity | ]].
  split; [ | split].
  - exact (proj1 (@TraceStart_works_only_after_Start_succeeded
                    fineEnv fullModule (Some Background) "convert" eq_refl eq_refl)).
  - exact (proj2 (@TraceStart_works_only_after_Start_succeeded
                    fineEnv fullModule (Some Background) "convert" eq_refl eq_refl)).
  - exact (proj2 (@TraceStart_works_only_after_Start_succeeded
                    noSpanEnv fullModule (Some Background) "convert" eq_refl eq_refl)).
Defined.


(** X23. After a [Start] that returned nil every enabled exporter has its
    provider, so [Stop] on the module as [Start] left it does not panic:
    it returns the join of the shutdown results that are not a context
    cancellation, nil when there is none. *)
Theorem Stop_after_successful_Start_returns (env : Env) (m : Otel)
  (sd : Shutdowns) :
  snd (Start env m) = None ->
  providersReady (smod (fst (Start env m))) = true
  /\ Stop (smod (fst (Start env m))) sd
     = Returns (if allDisabled m then None
                else match surviving m sd with
                     | [] => None
                     | l => Some (JoinError l)
                     end).
Proof.
  intros Hnil.
  assert (Hset : settings (smod (fst (Start env m))) = settings m).
  { clear Hnil. start_cases env m; rewrite ?El, ?Em, ?Es; reflexivity. }
  assert (Hr : providersReady (smod (fst (Start env m))) = true).
  { revert Hnil. clear Hset. unfold providersReady, isNil_provider.
    start_cases env m; intros Hx; try discriminate Hx;
      rewrite ?El, ?Em, ?Es; reflexivity. }
  split; [exact Hr | ].
  unfold settings in Hset. injection Hset as Hn Hlp Hle Hmp Hmi Hme Hsp Hse Hms.
  assert (Hd : allDisabled (smod (fst (Start env m))) = allDisabled m).
  { unfold allDisabled. rewrite Hle, Hme, Hse. reflexivity. }
  assert (Hc : collected (smod (fst (Start env m))) sd = collected m sd).
  { unfold collected. rewrite Hle, Hme, Hse. reflexivity. }
  destruct (allDisabled m) eqn:Hdm.
  - unfold Stop. rewrite Hd. reflexivity.
  - rewrite (OtelProps.Stop_is_Join_of_collected _ sd Hd Hr), Hc.
    unfold Join, surviving. rewrite OtelProps.non_nil_filterErr. reflexivity.
Qed.

Lemma Stop_after_successful_Start_returns_witness :
  snd (Start fineEnv fullModule) = None
  /\ providersReady (smod (fst (Start fineEnv fullModule))) = true
  /\ Stop (smod (fst (Start fineEnv fullModule))) cancelledAndX
     = Returns (Some (JoinError [ErrorString "X"])).
Proof.
  split; [reflexivity | ].
  exact (@Stop_after_successful_Start_returns fineEnv fullModule cancelledAndX
           eq_refl).
Defined.

(** ** Validate and the exporter constructors *)

(** X6. Once [Validate] has returned nil for a module with an exporter
    enabled, the service name is not empty and no constructor of an
    enabled exporter can answer "unknown protocol": each one returns what
    the gRPC constructor of the SDK returns, wrapped when it is an error. *)
Theorem Validate_rules_out_unknown_protocols (env : Env) (m : Otel) :
  allDisabled m = false ->
  Validate m = None ->
  serviceName m <> ""
  /\ (enableLogExporter m = true ->
      newLogExporter env (logExporterProtocol m)
      = match otlploggrpc_New env with
        | Some e => Some (WrapError "create OTLP gRPC log exporter: " e)
        | None => None
        end)
  /\ (enableMetricExporter m = true ->
      newMetricExporter env (metricExporterProcotol m)
      = match otlpmetricgrpc_New env with
        | Some e => Some (WrapError "create OTLP gRPC metric exporter: " e)
        | None => None
        end)
  /\ (enableSpanExporter m = true ->
      newSpanExporter env (spanExporterProtocol m)
      = match otlptracegrpc_New env with
        | Some e => Some (WrapError "create OTLP gRPC span exporter: " e)
        | None => None
        end).
Proof.
  intros Hd. unfold Validate, newLogExporter, newMetricExporter, newSpanExporter.
  rewrite Hd.
  destruct (String.eqb_spec (serviceName m) "") as [Hn | Hn];
    destruct (enableLogExporter m), (logExporterProtocol m =? "grpc")%string,
      (enableMetricExporter m), (metricExporterProcotol m =? "grpc")%string,
      (enableSpanExporter m), (spanExporterProtocol m =? "grpc")%string;
    cbn [negb multierr.Append multierr.Errors multierr.flat app];
    intros Hv; try discriminate Hv;
    (split; [exact Hn | ]);
    repeat split; intros Hx; try discriminate Hx; reflexivity.
Qed.

Lemma Validate_rules_out_unknown_protocols_witness :
  allDisabled fullModule = false
  /\ Validate fullModule = None
  /\ serviceName fullModule <> ""
  /\ newSpanExporter noSpanEnv (spanExporterProtocol fullModule)
     = Some (WrapError "create OTLP gRPC span exporter: "
               (ErrorString "connection refused")).
Proof.
  split; [reflexivity | split; [reflexivity | ]].
  destruct (@Validate_rules_out_unknown_protocols noSpanEnv fullModule
              eq_refl eq_refl) as [Hn [_ [_ Hs]]].
  split; [exact Hn | exact (Hs eq_refl)].
Defined.

(** ** Stop *)

Lemma Join_nil_iff (l : list error) :
  Join l = None <-> forallb isNil l = true.
Proof.
  unfold Join. induction l as [ | [e | ] l IH]; cbn.
  - split; reflexivity.
  - split; discriminate.
  - exact IH.
Qed.

Lemma forallb_filterErr (l : list error) :
  forallb isNil (map filterErr l)
  = forallb (fun r => isNil r || Is_Canceled r) l.
Proof.
  induction l as [ | [e | ] l IH]; cbn [map forallb].
  - reflexivity.
  - unfold filterErr at 1. cbn [Is_Canceled isNil orb].
    destruct (is_canceled e); cbn [isNil]; rewrite IH; reflexivity.
  - rewrite IH. reflexivity.
Qed.

(** X7. [Stop] returns nil exactly when no exporter is enabled or every
    enabled exporter has its provider and every result it collects is nil
    or a context cancellation in the sense of [errors.Is]; it panics
    exactly when an enabled exporter has no provider. A result that wraps
    or joins a cancellation counts as one as a whole: a genuine error
    joined to a cancellation is not reported. *)
Theorem Stop_returns_nil_iff_only_cancellations (m : Otel) (sd : Shutdowns) :
  (Stop m sd = Returns None
   <-> allDisabled m = true
       \/ (providersReady m = true
           /\ forallb (fun r => isNil r || Is_Canceled r) (collected m sd) = true))
  /\ (Stop m sd = Panics <-> allDisabled m = false /\ providersReady m = false)
  /\ (forall x : err,
        enableLogExporter m = true ->
        loggerShutdown sd = Some (JoinError [x; Canceled]) ->
        Stop m sd
        = Stop m {| loggerShutdown := None;
                    meterShutdown := meterShutdown sd;
                    tracerShutdown := tracerShutdown sd |}).
Proof.
  split; [ | split].
  - destruct (allDisabled m) eqn:Hd.
    + unfold Stop. rewrite Hd. split; [left | ]; reflexivity.
    + destruct (providersReady m) eqn:Hr.
      * rewrite (OtelProps.Stop_is_Join_of_collected m sd Hd Hr).
        rewrite <- forallb_filterErr. split.
        -- intros Hx. right. split; [reflexivity | ].
           apply Join_nil_iff. congruence.
        -- intros [Hx | [_ Hx]]; [discriminate Hx | ].
           apply Join_nil_iff in Hx. rewrite Hx. reflexivity.
      * rewrite (OtelProps.Stop_panics_without_provider m sd Hd Hr).
        split; [intros Hx; discriminate Hx | ].
        intros [Hx | [Hx _]]; discriminate Hx.
  - destruct (allDisabled m) eqn:Hd.
    + unfold Stop. rewrite Hd.
      split; [intros Hx; discriminate Hx | intros [Hx _]; discriminate Hx].
    + destruct (providersReady m) eqn:Hr.
      * rewrite (OtelProps.Stop_is_Join_of_collected m sd Hd Hr).
        split; [intros Hx; discriminate Hx | intros [_ Hx]; discriminate Hx].
      * rewrite (OtelProps.Stop_panics_without_provider m sd Hd Hr).
        split; [intros _; split | ]; reflexivity.
  - intros x El Hl.
    assert (Hd : allDisabled m = false).
    { unfold allDisabled. rewrite El. apply andb_false_r. }
    destruct (providersReady m) eqn:Hr.
    + rewrite !(OtelProps.Stop_is_Join_of_collected m _ Hd Hr).
      unfold collected. rewrite El, Hl.
      cbn [loggerShutdown meterShutdown tracerShutdown map].
      unfold filterErr at 1 4.
      cbn [Is_Canceled is_canceled existsb]. rewrite orb_true_r. reflexivity.
    + rewrite !(OtelProps.Stop_panics_without_provider m _ Hd Hr). reflexivity.
Qed.

Lemma Stop_returns_nil_iff_only_cancellations_witness :
  providersReady runningModule = true
  /\ forallb (fun r => isNil r || Is_Canceled r) (collected runningModule allCancelled) = true
  /\ Stop runningModule allCancelled = Returns None
  /\ allDisabled fullModule = false
  /\ providersReady fullModule = false
  /\ Stop fullModule allCancelled = Panics.
Proof.
  assert (Hr : providersReady runningModule = true) by reflexivity.
  assert (Hall : forallb (fun r => isNil r || Is_Canceled r)
                   (collected runningModule allCancelled) = true) by reflexivity.
  split; [exact Hr | split; [exact Hall | ]].
  split.
  - exact (proj2 (proj1 (Stop_returns_nil_iff_only_cancellations
                           runningModule allCancelled))
             (or_intror (conj Hr Hall))).
  - split; [reflexivity | split; [reflexivity | ]].
    exact (proj2 (proj1 (proj2 (Stop_returns_nil_iff_only_cancellations
                                  fullModule allCancelled)))
             (conj eq_refl eq_refl)).
Defined.

(** ** With every exporter disabled *)

(** X8. With the three exporters disabled the module is inert, whatever
    its other settings and whatever the outside calls would return:
    [Validate] accepts it, [Start] returns nil without touching the module
    or starting a poller, [Stop] returns nil without looking at a
    shutdown, and the startup message says so. *)
Theorem disabled_module_is_inert (env : Env) (m : Otel) (sd : Shutdowns) :
  enableLogExporter m = false ->
  enableMetricExporter m = false ->
  enableSpanExporter m = false ->
  Validate m = None
  /\ Start env m = ({| smod := m; spawned := [] |}, None)
  /\ Stop m sd = Returns None
  /\ StartupMessage m = "OTLP exporters are disabled".
Proof.
  intros El Em Es.
  unfold Validate, Start, Stop, StartupMessage, allDisabled.
  rewrite El, Em, Es. repeat split; reflexivity.
Qed.

Lemma disabled_module_is_inert_witness :
  enableLogExporter (set_metrics [gaugeLike] disabledModule) = false
  /\ Validate (set_metrics [gaugeLike] disabledModule) = None
  /\ Start noSpanEnv (set_metrics [gaugeLike] disabledModule)
     = ({| smod := set_metrics [gaugeLike] disabledModule; spawned := [] |}, None)
  /\ Stop (set_metrics [gaugeLike] disabledModule) allCancelled = Returns None.
Proof.
  split; [reflexivity | ].
  destruct (@disabled_module_is_inert noSpanEnv
              (set_metrics [gaugeLike] disabledModule) allCancelled
              eq_refl eq_refl eq_refl) as [Hv [Hs [Hp _]]].
  split; [exact Hv | split; [exact Hs | exact Hp]].
Defined.

End OtelMore.

(* ================================================================== *)
(** * Properties of the logging module's settings                      *)
(* ================================================================== *)

Module LoggingMore.
Import errors Logging.

(** X9. [Validate] of the logging module returns nil exactly when the
    level is one of error, warn, info, debug and the format is one of
    auto, json, text, compared as they are written. Otherwise it reports
    every fault: the level's error, the format's error, or both in that
    order. *)
Theorem Validate_checks_level_and_format (log : Logging) :
  let levelOk := In (level log) ["error"; "warn"; "info"; "debug"] in
  let formatOk := In (format log) ["auto"; "json"; "text"] in
  (Validate log = None <-> levelOk /\ formatOk)
  /\ (levelOk -> ~ formatOk -> Validate log = Some errFormat)
  /\ (~ levelOk -> formatOk -> Validate log = Some errLevel)
  /\ (~ levelOk -> ~ formatOk ->
      Validate log = Some (MultiError [errLevel; errFormat])).
Proof.
  unfold Validate, errorLoggingLevel, warnLoggingLevel, infoLoggingLevel,
    debugLoggingLevel, autoLoggingFormat, jsonLoggingFormat, textLoggingFormat.
  cbn [In].
  destruct (String.eqb_spec (level log) "error"),
    (String.eqb_spec (level log) "warn"),
    (String.eqb_spec (level log) "info"),
    (String.eqb_spec (level log) "debug"),
    (String.eqb_spec (format log) "auto"),
    (String.eqb_spec (format log) "json"),
    (String.eqb_spec (format log) "text");
    cbn [orb multierr.Append multierr.Errors multierr.flat app];
    repeat split; intros;
    try reflexivity; try discriminate; try tauto; try congruence;
    solve [ intuition congruence | exfalso; intuition congruence ].
Qed.

Lemma Validate_checks_level_and_format_witness :
  ~ In (level badLogging) ["error"; "warn"; "info"; "debug"]
  /\ ~ In (format badLogging) ["auto"; "json"; "text"]
  /\ Validate badLogging
     = Some (MultiError
               [ErrorString "log level must be either error, warn, info or debug";
                ErrorString "log format must be either auto, json or text"]).
Proof.
  assert (Hl : ~ In (level badLogging) ["error"; "warn"; "info"; "debug"]).
  { cbn. intuition discriminate. }
  assert (Hf : ~ In (format badLogging) ["auto"; "json"; "text"]).
  { cbn. intuition discriminate. }
  split; [exact Hl | split; [exact Hf | ]].
  exact (proj2 (proj2 (proj2 (Validate_checks_level_and_format badLogging))) Hl Hf).
Defined.

End LoggingMore.

(* ================================================================== *)
(** * Further properties of the bridge core                            *)
(* ================================================================== *)

Module BridgeMore.
Import runtime errors zapcore logging.

Section Generic.

Context {T Tg : Type} `{ZapCore T Tg}.

Implicit Types (w : bridgeWorld T Tg) (c : call) (t : Tg) (b : bridgeCore).

Lemma steps_keep_attached t w1 w :
  steps useStep w1 w ->
  shared w1 = {| target := Some t; buffer := [] |} ->
  shared w = {| target := Some t; buffer := [] |}.
Proof.
  intros Hsteps Hs. induction Hsteps as [ | w1 w w' _ IH Hstep].
  - exact Hs.
  - apply (BridgeProps.useStep_keeps_attached Hstep). apply IH. exact Hs.
Qed.

Lemma writes_stay_unattached (cs : list call) (tw : T) :
  writeAll cs (freshWorld tw)
  = {| shared := {| target := None;
                    buffer := firstn capacity (map logged (filter notInternal cs)) |};
       backend := tw |}.
Proof.
  rewrite BridgeProps.writeAll_buffering; [reflexivity | reflexivity | ].
  apply Nat.le_0_l.
Qed.

(** X10. [With] leaves the slice it is given as it is and returns a handle
    with the same level enabler whose fields are the old ones followed
    by the new ones; handles nest in that order. Writing through the
    derived handle does to the world, and returns, what writing through
    the first handle with the new fields put in front of the call's
    fields does. *)
Theorem With_accumulates_fields b (fs1 fs2 fs : list Field) (e : Entry) w :
  let d := snd (bridgeCore_With b fs1) in
  fst (bridgeCore_With b fs1) = fs1
  /\ level d = level b
  /\ fields (snd (bridgeCore_With d fs2)) = fields b ++ fs1 ++ fs2
  /\ snd (bridgeCore_Write d e fs w) = snd (bridgeCore_Write b e (fs1 ++ fs) w).
Proof.
  cbn [bridgeCore_With fst snd fields level].
  split; [reflexivity | split; [reflexivity | ]].
  split; [symmetry; apply app_assoc | ].
  unfold bridgeCore_Write. cbn [fields].
  rewrite <- app_assoc.
  destruct (hasInternalKey (fields b ++ fs1 ++ fs)); [reflexivity | ].
  destruct (target (shared w)) as [t | ].
  - destruct (Write t e (fields b ++ fs1 ++ fs) (backend w)) as [fs' [err tw]].
    reflexivity.
  - destruct (Z.of_nat (List.length (buffer (shared w))) <? 1000); reflexivity.
Qed.

(** X11. However many entries are written to a new bridge, as long as no
    target is attached none reaches the backend, whose state stays as it
    was; [Enabled] answers with the handle's own level enabler, [Sync]
    returns nil and changes nothing, and [Check] adds the handle itself. *)
Theorem unattached_bridge_keeps_to_itself (cs : list call) (tw : T) b
  (lvl : Lvl) (e : Entry) :
  let w := writeAll cs (freshWorld tw) in
  backend w = tw
  /\ target (shared w) = None
  /\ bridgeCore_Enabled b lvl w = level b lvl
  /\ bridgeCore_Sync b w = (None, w)
  /\ bridgeCore_Check b e w = [(e, bridgeCore_Write b)].
Proof.
  intros w. subst w. rewrite writes_stay_unattached.
  repeat split; reflexivity.
Qed.

(** X12. Once a target is attached, and whatever is written or synced
    afterwards, a handle answers [Enabled] with the target's answer,
    whatever its own level enabler says, [Sync] is the target's [Sync],
    and [Check] hands the entry to the target's [Check]. *)
Theorem attached_bridge_defers_to_target t (w0 w1 : bridgeWorld T Tg) :
  SetTarget (Some t) w0 = Returns w1 ->
  forall w b (lvl : Lvl) (e : Entry),
    steps useStep w1 w ->
    bridgeCore_Enabled b lvl w = Enabled t lvl (backend w)
    /\ bridgeCore_Sync b w
       = (fst (Sync t (backend w)),
          {| shared := {| target := Some t; buffer := [] |};
             backend := snd (Sync t (backend w)) |})
    /\ bridgeCore_Check b e w
       = map (fun a => (fst a, onBackend (snd a))) (Check t e (backend w)).
Proof.
  intros Hset w b lvl e Hsteps.
  assert (Hs : shared w = {| target := Some t; buffer := [] |}).
  { apply (steps_keep_attached Hsteps).
    unfold SetTarget in Hset. injection Hset as <-. reflexivity. }
  unfold bridgeCore_Enabled, bridgeCore_Sync, bridgeCore_Check.
  rewrite Hs. cbn [target].
  destruct (Sync t (backend w)) as [err tw]. repeat split; reflexivity.
Qed.

(** X13. Once 1000 entries without an internal key have been written to a
    new bridge, further writes before a target is attached change
    nothing: the newest entries are the ones dropped. *)
Theorem full_buffer_ignores_later_writes (cs1 cs2 : list call) (tw : T) :
  (1000 <= List.length (filter notInternal cs1))%nat ->
  writeAll (cs1 ++ cs2) (freshWorld tw) = writeAll cs1 (freshWorld tw).
Proof.
  change 1000%nat with capacity. intros Hfull.
  rewrite !writes_stay_unattached, filter_app, map_app.
  rewrite BridgeProps.firstn_capacity_full; [reflexivity | ].
  rewrite length_map. exact Hfull.
Qed.

(** X14. Attaching a second target replays nothing: the buffer was emptied
    by the first attachment and has stayed empty, so the backend is left
    as it is, and from then on a write of an entry without an internal
    key is the second target's [Write]. *)
Theorem second_SetTarget_replays_nothing (t1 t2 : Tg) (w0 w1 : bridgeWorld T Tg) :
  SetTarget (Some t1) w0 = Returns w1 ->
  forall w c,
    steps useStep w1 w ->
    isInternal c = false ->
    let w2 := {| shared := {| target := Some t2; buffer := [] |};
                 backend := backend w |} in
    SetTarget (Some t2) w = Returns w2
    /\ doWrite c w2
       = (fst (snd (Write t2 (callEnt c) (fields (handle c) ++ callFields c)
                      (backend w))),
          {| shared := {| target := Some t2; buffer := [] |};
             backend := snd (snd (Write t2 (callEnt c)
                                    (fields (handle c) ++ callFields c)
                                    (backend w))) |}).
Proof.
  intros Hset w c Hsteps Hi w2.
  assert (Hs : shared w = {| target := Some t1; buffer := [] |}).
  { apply (steps_keep_attached Hsteps).
    unfold SetTarget in Hset. injection Hset as <-. reflexivity. }
  split.
  - unfold SetTarget. rewrite Hs. reflexivity.
  - rewrite (@BridgeProps.doWrite_forwarding _ _ _ c w2 t2 Hi eq_refl).
    reflexivity.
Qed.

(** X15. [SetTarget] with a nil core, after any writes to a new bridge:
    it panics as soon as one entry without an internal key was written,
    and otherwise returns with the bridge as new, still without a target
    and buffering. *)
Theorem SetTarget_nil_panics_on_buffered_entries (cs : list call) (tw : T) :
  SetTarget None (writeAll cs (freshWorld tw))
  = if existsb notInternal cs then Panics else Returns (freshWorld tw).
Proof.
  rewrite writes_stay_unattached. unfold SetTarget.
  cbn [shared buffer backend].
  induction cs as [ | c cs IH].
  - reflexivity.
  - cbn [filter existsb]. destruct (notInternal c); cbn [orb map].
    + reflexivity.
    + exact IH.
Qed.

End Generic.


(** *** With a recording core *)

Lemma forwardAll_observer (o : observer) (cs : list call) :
  forall log : list LoggedEntry,
    forwardAll o cs log = log ++ map (seenBy o) (map logged cs).
Proof.
  induction cs as [ | c cs IH]; intros log.
  - cbn. now rewrite app_nil_r.
  - cbn [forwardAll map]. rewrite IH.
    cbn [Write observer_Core observer_Write snd].
    rewrite <- app_assoc. reflexivity.
Qed.

(** X16. Whatever is written to a new bridge before a recording core is
    attached, internal or not and however much, the core is then shown
    the first 1000 entries that carry no internal key, in order, less
    those its [Check] turns down: entries with an internal key are never
    replayed and take no room in the buffer. *)
Theorem replay_shows_first_1000_not_internal (o : observer) (cs : list call)
  (log0 : list LoggedEntry) :
  SetTarget (Some o) (writeAll cs (freshWorld log0))
  = Returns
      {| shared := {| target := Some o; buffer := [] |};
         backend := log0 ++ map (seenBy o)
                              (filter (passes o)
                                 (firstn 1000
                                    (map logged (filter notInternal cs)))) |}.
Proof.
  exact (BridgeProps.SetTarget_after_writes o cs log0).
Qed.

(** X17. Writes made after a recording core is attached to a new bridge
    reach it at once and without its [Check] being asked: it is shown
    every entry without an internal key, however many there are and
    whatever their level. So attaching first and attaching last show the
    core the same entries when at most 1000 are written and its [Check]
    lets all of them through. *)
Theorem live_writes_skip_Check_and_capacity (o : observer) (cs : list call)
  (log0 : list LoggedEntry) :
  let attached := {| shared := {| target := Some o; buffer := [] |};
                     backend := log0 |} in
  SetTarget (Some o) (freshWorld log0) = Returns attached
  /\ writeAll cs attached
     = {| shared := {| target := Some o; buffer := [] |};
          backend := log0 ++ map (seenBy o) (map logged (filter notInternal cs)) |}
  /\ ((List.length (filter notInternal cs) <= 1000)%nat ->
      forallb (passes o) (map logged (filter notInternal cs)) = true ->
      SetTarget (Some o) (writeAll cs (freshWorld log0))
      = Returns (writeAll cs attached)).
Proof.
  intros attached.
  assert (Hlive : writeAll cs attached
                  = {| shared := {| target := Some o; buffer := [] |};
                       backend := log0 ++ map (seenBy o)
                                            (map logged (filter notInternal cs)) |}).
  { rewrite (@BridgeProps.writeAll_forwarding _ _ _ o cs attached eq_refl).
    rewrite forwardAll_observer. reflexivity. }
  split; [reflexivity | split; [exact Hlive | ]].
  intros Hlen Hpass.
  rewrite Hlive, BridgeProps.SetTarget_after_writes.
  rewrite firstn_all2 by (rewrite length_map; exact Hlen).
  rewrite (BridgeProps.filter_all _ _ Hpass). reflexivity.
Qed.

(** X18. After a recording core is attached, an entry that goes through
    the bridge's [Check] and the write of the checked entry reaches the
    core directly: it is recorded with the fields of the call alone,
    without the fields the handle got from [With], and also when these
    fields hold the internal key, for which [Write] on the same handle
    records nothing. *)
Theorem Check_after_attachment_bypasses_the_handle (o : observer)
  (b : bridgeCore) (e : Entry) (fs : list Field)
  (w : bridgeWorld (list LoggedEntry) observer) :
  target (shared w) = Some o ->
  obsEnab o (Level e) = true ->
  (exists ce,
      runCheck (bridgeCore_Check b e w) None = Some ce
      /\ snd (CheckedEntry_Write ce fs w)
         = {| shared := shared w;
              backend := backend w ++ [(e, obsContext o ++ fs)] |})
  /\ snd (bridgeCore_Write b e fs w)
     = (None,
        if hasInternalKey (fields b ++ fs) then w
        else {| shared := shared w;
                backend := backend w ++ [(e, obsContext o ++ fields b ++ fs)] |}).
Proof.
  intros Ht Hen. split.
  - unfold bridgeCore_Check. rewrite Ht.
    cbn [Check observer_Core]. rewrite Hen.
    cbn [map runCheck fold_left AddCore fst snd].
    eexists. split; [reflexivity | ].
    unfold CheckedEntry_Write. cbn [cores ceEntry writeCores].
    unfold onBackend, observer_Write. reflexivity.
  - unfold bridgeCore_Write. rewrite Ht.
    destruct (hasInternalKey (fields b ++ fs)); reflexivity.
Qed.

(** *** The theorems at work *)

Lemma full_buffer_ignores_later_writes_witness :
  (1000 <= List.length (filter notInternal (callsFrom 0 1000)))%nat
  /\ writeAll (callsFrom 0 1000 ++ callsFrom 1000 5) (freshWorld ([] : list LoggedEntry))
     = writeAll (callsFrom 0 1000) (@freshWorld _ observer []).
Proof.
  assert (Hfull : (1000 <= List.length (filter notInternal (callsFrom 0 1000)))%nat).
  { apply Nat.leb_le. vm_compute. reflexivity. }
  split; [exact Hfull | ].
  exact (@full_buffer_ignores_later_writes (list LoggedEntry) observer _
           (callsFrom 0 1000) (callsFrom 1000 5) [] Hfull).
Defined.

Lemma attached_bridge_defers_to_target_witness :
  let w1 := {| shared := {| target := Some warnRecorder; buffer := [] |};
               backend := [] |} in
  SetTarget (Some warnRecorder) (freshWorld []) = Returns w1
  /\ level rootHandle InfoLevel = true
  /\ bridgeCore_Enabled rootHandle InfoLevel (snd (doWrite (oneCall 1) w1)) = false.
Proof.
  intros w1.
  assert (Hset : SetTarget (Some warnRecorder) (freshWorld []) = Returns w1)
    by reflexivity.
  split; [exact Hset | split; [reflexivity | ]].
  assert (Hsteps : steps useStep w1 (snd (doWrite (oneCall 1) w1))).
  { eapply steps_snoc; [apply steps_refl | apply use_Write]. }
  rewrite (proj1 (@attached_bridge_defers_to_target _ _ _ warnRecorder _ w1 Hset
                    _ rootHandle InfoLevel (entryAt InfoLevel "request") Hsteps)).
  reflexivity.
Defined.

Lemma second_SetTarget_replays_nothing_witness :
  let w1 := {| shared := {| target := Some recorder; buffer := [] |};
               backend := [ (entryAt InfoLevel "request", [intField "count" 0]) ] |} in
  SetTarget (Some recorder) (writeAll (callsFrom 0 1) (freshWorld [])) = Returns w1
  /\ isInternal (oneCall 1) = false
  /\ SetTarget (Some warnRecorder) w1
     = Returns {| shared := {| target := Some warnRecorder; buffer := [] |};
                  backend := backend w1 |}.
Proof.
  intros w1.
  assert (Hset : SetTarget (Some recorder) (writeAll (callsFrom 0 1) (freshWorld []))
                 = Returns w1) by reflexivity.
  split; [exact Hset | split; [reflexivity | ]].
  exact (proj1 (@second_SetTarget_replays_nothing _ _ _ recorder warnRecorder _ w1
                  Hset w1 (oneCall 1) (steps_refl useStep w1) eq_refl)).
Defined.

Lemma live_writes_skip_Check_and_capacity_witness :
  (List.length (filter notInternal [oneCall 1; internalCall 2; debugCall]) <= 1000)%nat
  /\ forallb (passes recorder)
       (map logged (filter notInternal [oneCall 1; internalCall 2; debugCall])) = true
  /\ SetTarget (Some recorder)
       (writeAll [oneCall 1; internalCall 2; debugCall] (freshWorld []))
     = Returns (writeAll [oneCall 1; internalCall 2; debugCall]
                  {| shared := {| target := Some recorder; buffer := [] |};
                     backend := [] |}).
Proof.
  assert (Hlen : (List.length (filter notInternal [oneCall 1; internalCall 2; debugCall])
                  <= 1000)%nat).
  { apply Nat.leb_le. vm_compute. reflexivity. }
  assert (Hpass : forallb (passes recorder)
                    (map logged (filter notInternal
                                   [oneCall 1; internalCall 2; debugCall])) = true)
    by reflexivity.
  split; [exact Hlen | split; [exact Hpass | ]].
  exact (proj2 (proj2 (live_writes_skip_Check_and_capacity recorder
                         [oneCall 1; internalCall 2; debugCall] []))
           Hlen Hpass).
Defined.

Lemma Check_after_attachment_bypasses_the_handle_witness :
  let w := {| shared := {| target := Some recorder; buffer := [] |};
              backend := ([] : list LoggedEntry) |} in
  target (shared w) = Some recorder
  /\ obsEnab recorder (Level (entryAt ErrorLevel "export failed")) = true
  /\ (exists ce,
         runCheck (bridgeCore_Check internalHandle
                     (entryAt ErrorLevel "export failed") w) None = Some ce
         /\ snd (CheckedEntry_Write ce [intField "attempt" 1] w)
            = {| shared := shared w;
                 backend := [ (entryAt ErrorLevel "export failed",
                               [intField "attempt" 1]) ] |})
  /\ snd (bridgeCore_Write internalHandle (entryAt ErrorLevel "export failed")
            [intField "attempt" 1] w)
     = (None, w).
Proof.
  intros w.
  split; [reflexivity | split; [reflexivity | ]].
  exact (@Check_after_attachment_bypasses_the_handle recorder internalHandle
           (entryAt ErrorLevel "export failed") [intField "attempt" 1] w
           eq_refl eq_refl).
Defined.

End BridgeMore.

(* ================================================================== *)
(** * Further properties of the root core                              *)
(* ================================================================== *)

Module RootMore.
Import runtime errors zapcore logging.

Lemma underscore_in_prefixed_key (p k : string) :
  In "_"%char (list_ascii_of_string ((p ++ "_") ++ k)).
Proof.
  induction p as [ | a p IH]; cbn.
  - left. reflexivity.
  - right. exact IH.
Qed.

Lemma prefixed_key_is_not_internal (p k : string) :
  (((p ++ "_") ++ k) =? internalKey)%string = false.
Proof.
  apply String.eqb_neq. intros Heq.
  pose proof (underscore_in_prefixed_key p k) as Hin.
  rewrite Heq in Hin. cbn in Hin.
  repeat (destruct Hin as [Hin | Hin]; [discriminate Hin | ]).
  exact Hin.
Qed.

Lemma prefixFields_hides_internal_key (p : string) (fs : list Field) :
  hasInternalKey (prefixFields p fs) = false.
Proof.
  unfold hasInternalKey, prefixFields.
  induction fs as [ | f fs IH]; cbn [map existsb].
  - reflexivity.
  - cbn [setKey Key]. rewrite prefixed_key_is_not_internal. exact IH.
Qed.

Lemma prefixFields_app (p : string) (fs1 fs2 : list Field) :
  prefixFields p (fs1 ++ fs2) = prefixFields p fs1 ++ prefixFields p fs2.
Proof. unfold prefixFields. apply map_app. Qed.

(** X19. A root core with a prefix over a new bridge: no field that comes
    through its [With] or [Write] keeps the key "internal", since every
    key is rewritten first. So an entry marked internal that way is not
    dropped by the bridge: it is buffered with its rewritten fields, those
    of [With] before those of the call, and a recording core attached
    later is shown it, at the level the root core raised it to, when its
    [Check] lets it through. *)
Theorem prefix_hides_the_internal_key (p : string) (lvl : Lvl -> bool)
  (o : observer) (fs1 fs2 : list Field) (e : Entry) (log0 : list LoggedEntry) :
  p <> "" ->
  let rc : rootCore bridgeCore :=
    {| Core := fst (@newBridgeCore observer lvl); fieldsPrefix := p |} in
  let d := snd (@rootCore_With (bridgeWorld (list LoggedEntry) observer) _ _ rc fs1) in
  let e' := if Level e <? DebugLevel then setLevel DebugLevel e else e in
  let w := snd (snd (rootCore_Write d e fs2 (freshWorld log0))) in
  hasInternalKey (prefixFields p (fs1 ++ fs2)) = false
  /\ w = {| shared := {| target := None;
                         buffer := [ {| ent := e';
                                        bufFields := prefixFields p fs1
                                                     ++ prefixFields p fs2 |} ] |};
            backend := log0 |}
  /\ SetTarget (Some o) w
     = Returns
         {| shared := {| target := Some o; buffer := [] |};
            backend := log0
                       ++ (if obsEnab o (Level e')
                           then [(e', obsContext o ++ prefixFields p fs1
                                      ++ prefixFields p fs2)]
                           else []) |}.
Proof.
  intros Hp rc d e' w.
  assert (Hne : negb (p =? "")%string = true).
  { apply negb_true_iff, String.eqb_neq. exact Hp. }
  assert (Hw : w = {| shared := {| target := None;
                                   buffer := [ {| ent := e';
                                                  bufFields := prefixFields p fs1
                                                               ++ prefixFields p fs2 |} ] |};
                      backend := log0 |}).
  { subst w d rc. unfold rootCore_With, rootCore_Write.
    cbn [fieldsPrefix Core With bridgeCore_Core bridgeCore_With snd fst
         newBridgeCore].
    rewrite Hne.
    cbn [fieldsPrefix Core With bridgeCore_Core bridgeCore_With snd fst
         newBridgeCore Write].
    unfold bridgeCore_Write. cbn [fields app].
    rewrite <- prefixFields_app, prefixFields_hides_internal_key.
    cbn [freshWorld shared target buffer backend List.length Z.of_nat].
    cbn [Z.ltb Z.compare app snd]. rewrite prefixFields_app. reflexivity. }
  split; [apply prefixFields_hides_internal_key | ].
  split; [exact Hw | ].
  rewrite Hw. unfold SetTarget. cbn [shared buffer backend].
  rewrite BridgeProps.replay_observer. cbn [filter]. unfold passes at 1.
  cbn [ent]. destruct (obsEnab o (Level e')); reflexivity.
Qed.

Lemma prefix_hides_the_internal_key_witness :
  "app" <> ""
  /\ hasInternalKey [boolField internalKey true] = true
  /\ SetTarget (Some recorder)
       (snd (snd (rootCore_Write
                    (snd (@rootCore_With (bridgeWorld (list LoggedEntry) observer) _ _
                            appBridgeRoot [boolField internalKey true]))
                    (entryAt ErrorLevel "export failed") [intField "attempt" 1]
                    (freshWorld []))))
     = Returns
         {| shared := {| target := Some recorder; buffer := [] |};
            backend := [ (entryAt ErrorLevel "export failed",
                          [boolField "app_internal" true; intField "app_attempt" 1]) ] |}.
Proof.
  assert (Hp : "app" <> "") by discriminate.
  split; [exact Hp | split; [reflexivity | ]].
  exact (proj2 (proj2 (@prefix_hides_the_internal_key "app" (fun l => InfoLevel <=? l)
                         recorder [boolField internalKey true] [intField "attempt" 1]
                         (entryAt ErrorLevel "export failed") [] Hp))).
Defined.

(** X20. [Write] of a root core with a prefix rewrites the keys in the
    slice it was given: when the embedded core leaves the slice alone, as
    a recording core does, the caller's fields carry the prefix once the
    call has returned. A second root core handed the same slice rewrites
    the keys again, and its embedded core records them with both
    prefixes. *)
Theorem reused_slice_is_prefixed_again (o1 o2 : observer) (p1 p2 : string)
  (e : Entry) (fs : list Field) (log : list LoggedEntry) :
  p1 <> "" -> p2 <> "" ->
  let e' := if Level e <? DebugLevel then setLevel DebugLevel e else e in
  let r1 := rootCore_Write {| Core := o1; fieldsPrefix := p1 |} e fs log in
  let r2 := rootCore_Write {| Core := o2; fieldsPrefix := p2 |} e (fst r1)
              (snd (snd r1)) in
  fst r1 = prefixFields p1 fs
  /\ snd (snd r2)
     = log ++ [ (e', obsContext o1 ++ prefixFields p1 fs);
                (e', obsContext o2 ++ prefixFields p2 (prefixFields p1 fs)) ]
  /\ map Key (prefixFields p2 (prefixFields p1 fs))
     = map (fun f => ((p2 ++ "_") ++ (p1 ++ "_") ++ Key f)%string) fs.
Proof.
  intros Hp1 Hp2 e' r1 r2.
  assert (Hn1 : negb (p1 =? "")%string = true)
    by (apply negb_true_iff, String.eqb_neq; exact Hp1).
  assert (Hn2 : negb (p2 =? "")%string = true)
    by (apply negb_true_iff, String.eqb_neq; exact Hp2).
  subst r2 r1. unfold rootCore_Write. cbn [fieldsPrefix Core].
  rewrite Hn1, Hn2. cbn [Write observer_Core observer_Write fst snd].
  split; [reflexivity | split].
  - rewrite <- app_assoc. reflexivity.
  - unfold prefixFields. rewrite !map_map. reflexivity.
Qed.

Lemma reused_slice_is_prefixed_again_witness :
  "app" <> ""
  /\ snd (snd (rootCore_Write appRoot (entryAt InfoLevel "request")
                 (fst (rootCore_Write appRoot (entryAt InfoLevel "request")
                         [intField "count" 1] []))
                 (snd (snd (rootCore_Write appRoot (entryAt InfoLevel "request")
                              [intField "count" 1] [])))))
     = [ (entryAt InfoLevel "request", [intField "app_count" 1]);
         (entryAt InfoLevel "request", [intField "app_app_count" 1]) ].
Proof.
  assert (Hp : "app" <> "") by discriminate.
  split; [exact Hp | ].
  exact (proj1 (proj2 (@reused_slice_is_prefixed_again recorder recorder "app" "app"
                         (entryAt InfoLevel "request") [intField "count" 1] []
                         Hp Hp))).
Defined.

Section Generic.

Context {W C : Type} `{ZapCore W C}.

(** X21. Two calls of [With] on a root core with a prefix: the embedded
    core receives the fields of each call rewritten once, first those of
    the first call, then those of the second; the fields of the first
    call are not rewritten again by the second, and the prefix is kept. *)
Theorem With_twice_prefixes_each_field_once (c : rootCore C)
  (fs1 fs2 : list Field) :
  fieldsPrefix c <> "" ->
  let p := fieldsPrefix c in
  let d1 := snd (rootCore_With c fs1) in
  let d2 := snd (rootCore_With d1 fs2) in
  Core d2 = snd (With (snd (With (Core c) (prefixFields p fs1)))
                   (prefixFields p fs2))
  /\ fieldsPrefix d2 = p.
Proof.
  intros Hp p d1 d2.
  assert (Hne : negb (fieldsPrefix c =? "")%string = true)
    by (apply negb_true_iff, String.eqb_neq; exact Hp).
  subst d2 d1 p. unfold rootCore_With. rewrite Hne.
  destruct (With (Core c) (prefixFields (fieldsPrefix c) fs1)) as [fs1' c1].
  cbn [snd fieldsPrefix Core]. rewrite Hne.
  destruct (With c1 (prefixFields (fieldsPrefix c) fs2)) as [fs2' c2].
  split; reflexivity.
Qed.

End Generic.

Lemma With_twice_prefixes_each_field_once_witness :
  fieldsPrefix appRoot <> ""
  /\ obsContext (Core (snd (rootCore_With (snd (rootCore_With appRoot
                                                  [intField "count" 1]))
                              [intField "size" 2])))
     = [intField "app_count" 1; intField "app_size" 2].
Proof.
  assert (Hp : fieldsPrefix appRoot <> "") by discriminate.
  split; [exact Hp | ].
  rewrite (proj1 (@With_twice_prefixes_each_field_once _ _ _ appRoot
                    [intField "count" 1] [intField "size" 2] Hp)).
  reflexivity.
Defined.

End RootMore.

(* ================================================================== *)
(** * The prefix under the tee of [Logging.Logger]                     *)
(* ================================================================== *)

Module LoggerProps.
Import runtime errors zapcore logging logger.

(** C10. Under the tee of [Logging.Logger] with a prefix [p], the two root
    cores are handed the same slice and each rewrites its keys. The
    standard core records the fields of a logged entry with the keys
    [p_key]; the core attached to the bridge records them with the keys
    [p_p_key]. The same holds for the fields given to the logger's
    [With]: the standard core receives them with one prefix, the bridge
    handle keeps them with two. *)
Theorem tee_prefixes_bridge_fields_twice (p : string) (o1 o2 : observer)
  (b : bridgeCore) (e : Entry) (fs : list Field)
  (log1 log2 : list LoggedEntry) :
  p <> "" ->
  DebugLevel <= Level e ->
  obsEnab o1 (Level e) = true ->
  obsEnab o2 (Level e) = true ->
  hasInternalKey (fields b) = false ->
  let tee := teeCore o1 b p in
  let w : loggerWorld :=
    (log1, {| shared := {| target := Some o2; buffer := [] |}; backend := log2 |}) in
  snd (logEntry tee e fs w)
  = (log1 ++ [(e, obsContext o1 ++ prefixFields p fs)],
     {| shared := {| target := Some o2; buffer := [] |};
        backend := log2 ++ [(e, obsContext o2 ++ fields b
                                ++ prefixFields p (prefixFields p fs))] |})
  /\ obsContext (Core (fst (snd (loggerWith tee fs))))
     = obsContext o1 ++ prefixFields p fs
  /\ fields (Core (snd (snd (loggerWith tee fs))))
     = fields b ++ prefixFields p (prefixFields p fs)
  /\ map Key (prefixFields p (prefixFields p fs))
     = map (fun f => ((p ++ "_") ++ (p ++ "_") ++ Key f)%string) fs.
Proof.
  intros Hp Hlvl Ho1 Ho2 Hb tee w.
  assert (Hne : negb (p =? "")%string = true)
    by (apply negb_true_iff, String.eqb_neq; exact Hp).
  assert (Hge : (Level e <? DebugLevel) = false) by (apply Z.ltb_ge; exact Hlvl).
  split; [ | split; [ | split]].
  - subst tee w. unfold logEntry, teeCore.
    cbn [Enabled Check multiCore_Core].
    unfold multiCore_Enabled, multiCore_Check.
    cbn [fst snd Enabled Check rootCore_Core].
    unfold rootCore_Check, rootCore_Enabled.
    cbn [Core Enabled Check observer_Core bridgeCore_Core].
    unfold bridgeCore_Enabled. cbn [shared target backend].
    rewrite Hge. cbn [Enabled observer_Core]. rewrite Ho1, Ho2.
    cbn [orb negb]. rewrite andb_false_r.
    cbn [map app runCheck fold_left AddCore fst snd].
    unfold CheckedEntry_Write. cbn [cores ceEntry app writeCores].
    unfold onFirst at 1. unfold rootCore_Write at 1.
    cbn [fieldsPrefix Core fst snd]. rewrite Hge, Hne.
    cbn [Write observer_Core observer_Write fst snd].
    unfold onSecond. unfold rootCore_Write.
    cbn [fieldsPrefix Core fst snd]. rewrite Hge, Hne.
    cbn [Write bridgeCore_Core].
    unfold bridgeCore_Write.
    replace (hasInternalKey (fields b ++ prefixFields p (prefixFields p fs)))
      with false.
    + cbn [shared target backend Write observer_Core observer_Write fst snd].
      reflexivity.
    + symmetry. unfold hasInternalKey. rewrite existsb_app.
      fold (hasInternalKey (fields b)).
      fold (hasInternalKey (prefixFields p (prefixFields p fs))).
      rewrite Hb, RootMore.prefixFields_hides_internal_key. reflexivity.
  - subst tee. unfold loggerWith, teeCore.
    cbn [With multiCore_Core]. unfold multiCore_With.
    cbn [fst snd With rootCore_Core]. unfold rootCore_With.
    cbn [fieldsPrefix Core]. rewrite Hne.
    cbn [With observer_Core bridgeCore_Core]. unfold bridgeCore_With.
    reflexivity.
  - subst tee. unfold loggerWith, teeCore.
    cbn [With multiCore_Core]. unfold multiCore_With.
    cbn [fst snd With rootCore_Core]. unfold rootCore_With.
    cbn [fieldsPrefix Core]. rewrite Hne.
    cbn [With observer_Core bridgeCore_Core]. unfold bridgeCore_With.
    reflexivity.
  - unfold prefixFields. rewrite !map_map. reflexivity.
Qed.

Lemma tee_prefixes_bridge_fields_twice_witness :
  "app" <> ""
  /\ DebugLevel <= Level (entryAt InfoLevel "request")
  /\ obsEnab recorder (Level (entryAt InfoLevel "request")) = true
  /\ hasInternalKey (fields rootHandle) = false
  /\ snd (logEntry appTee (entryAt InfoLevel "request") [intField "count" 1]
            attachedAtStart)
     = ([ (entryAt InfoLevel "request", [intField "app_count" 1]) ],
        {| shared := {| target := Some recorder; buffer := [] |};
           backend := [ (entryAt InfoLevel "request",
                         [intField "app_app_count" 1]) ] |})
  /\ fields (Core (snd (snd (loggerWith appTee [intField "count" 1]))))
     = [intField "app_app_count" 1].
Proof.
  assert (Hp : "app" <> "") by discriminate.
  assert (Hlvl : DebugLevel <= Level (entryAt InfoLevel "request"))
    by (cbn; unfold DebugLevel, InfoLevel; lia).
  destruct (@tee_prefixes_bridge_fields_twice "app" recorder recorder rootHandle
              (entryAt InfoLevel "request") [intField "count" 1] [] []
              Hp Hlvl eq_refl eq_refl eq_refl)
    as [Hlog [_ [Hwith _]]].
  split; [exact Hp | split; [exact Hlvl | ]].
  split; [reflexivity | split; [reflexivity | ]].
  split; [exact Hlog | exact Hwith].
Defined.

End LoggerProps.
